(** * simple-http-server: a shallow embedding of the request parser, the
    response builder and the connection handler, with the properties the
    specification states about them.

    Layout: the Python values the program computes with ([Py]), then one
    module per source file ([http_parser], [http_response], [utils],
    [server]), then a small concrete file system used to run the model,
    and finally the lemmas. *)

From Stdlib Require Import List NArith ZArith Bool Lia.
From Stdlib Require Import Strings.String Strings.Ascii Strings.Byte Numbers.DecimalString.
Import ListNotations.

(* ================================================================== *)
(** * Python values *)
(* ================================================================== *)

Module Py.

(** A Python [str] is a sequence of Unicode code points, a [bytes] object a
    sequence of octets. *)
Definition char := N.
Definition str := list char.
Definition bytes := list byte.

(** Literals of the source are written as Rocq strings; [lit] reads one as
    a [str], [blit] as a [bytes]. *)
Definition lit (s : string) : str :=
  map N_of_ascii (list_ascii_of_string s).
Definition blit (s : string) : bytes :=
  list_byte_of_string s.
Arguments lit s%_string.
Arguments blit s%_string.

Definition CR : char := 13%N.
Definition LF : char := 10%N.
Definition CRLF : str := [CR; LF].
Definition SPACE : char := 32%N.
Definition COLON : char := 58%N.

(** Exceptions.  Only the class matters to the program (messages go to the
    log).  [UnicodeDecodeError] and [UnicodeEncodeError] are subclasses of
    [ValueError], [PermissionError] of [OSError]. *)
Inductive exn : Set :=
| ValueError
| UnicodeDecodeError
| UnicodeEncodeError
| PermissionError
| OSError.

Definition is_ValueError (e : exn) : bool :=
  match e with
  | ValueError | UnicodeDecodeError | UnicodeEncodeError => true
  | PermissionError | OSError => false
  end.

Definition is_PermissionError (e : exn) : bool :=
  match e with
  | PermissionError => true
  | _ => false
  end.

(** A computation that returns or raises. *)
Inductive result (A : Type) : Type :=
| Ok (a : A)
| Raise (e : exn).
Arguments Ok {A} a.
Arguments Raise {A} e.

Definition bind {A B} (m : result A) (k : A -> result B) : result B :=
  match m with
  | Ok a => k a
  | Raise e => Raise e
  end.

Notation "x <- m ;; k" := (bind m (fun x => k))
  (at level 61, m at next level, right associativity).

(** [try: m  except Exception: h] *)
Definition try_except {A} (m : result A) (h : exn -> result A) : result A :=
  match m with
  | Ok a => Ok a
  | Raise e => h e
  end.

(** ** Sequence operations shared by [str] and [bytes] *)
Section Seq.
Context {A : Type} (eqb : A -> A -> bool).

Fixpoint seq_eqb (s t : list A) : bool :=
  match s, t with
  | [], [] => true
  | x :: s', y :: t' => eqb x y && seq_eqb s' t'
  | _, _ => false
  end.

(** [remove_prefix s p] is [Some r] when [s = p ++ r]. *)
Fixpoint remove_prefix (s p : list A) {struct p} : option (list A) :=
  match p with
  | [] => Some s
  | y :: p' =>
      match s with
      | [] => None
      | x :: s' => if eqb x y then remove_prefix s' p' else None
      end
  end.

(** [s.startswith(p)] *)
Definition startswith (s p : list A) : bool :=
  match remove_prefix s p with
  | Some _ => true
  | None => false
  end.

(** [s.endswith(p)] *)
Definition endswith (s p : list A) : bool :=
  startswith (rev s) (rev p).

(** [s.partition(sep)]: the text before and after the leftmost
    occurrence of [sep], when there is one. *)
Fixpoint partition (s sep : list A) : option (list A * list A) :=
  match remove_prefix s sep with
  | Some r => Some ([], r)
  | None =>
      match s with
      | [] => None
      | x :: s' =>
          match partition s' sep with
          | Some (b, a) => Some (x :: b, a)
          | None => None
          end
      end
  end.

(** [sub in s] *)
Definition contains (s sub : list A) : bool :=
  match partition s sub with
  | Some _ => true
  | None => false
  end.

(** [s.split(sep)] for a non-empty [sep]; each step consumes at least
    one element, so [length s] steps are enough. *)
Fixpoint split_fuel (fuel : nat) (s sep : list A) : list (list A) :=
  match partition s sep with
  | None => [s]
  | Some (b, a) =>
      match fuel with
      | O => [s]
      | S fuel' => b :: split_fuel fuel' a sep
      end
  end.

Definition split (s sep : list A) : list (list A) :=
  split_fuel (List.length s) s sep.

(** [s.split(sep, 1)] *)
Definition split1 (s sep : list A) : list (list A) :=
  match partition s sep with
  | None => [s]
  | Some (b, a) => [b; a]
  end.

(** [sep.join(parts)] *)
Fixpoint join (sep : list A) (parts : list (list A)) : list A :=
  match parts with
  | [] => []
  | [p] => p
  | p :: rest => p ++ sep ++ join sep rest
  end.
End Seq.

Definition str_eqb : str -> str -> bool := seq_eqb N.eqb.

(** ** [str] methods *)

(** [str.isspace] on one code point: the code points Python treats as
    white space. *)
Definition isspace (c : char) : bool :=
  ((9 <=? c) && (c <=? 13) || (28 <=? c) && (c <=? 32)
   || (c =? 133) || (c =? 160) || (c =? 5760)
   || (8192 <=? c) && (c <=? 8202)
   || (c =? 8232) || (c =? 8233) || (c =? 8239) || (c =? 8287)
   || (c =? 12288))%N.

Fixpoint lstrip (s : str) : str :=
  match s with
  | [] => []
  | c :: s' => if isspace c then lstrip s' else s
  end.

Definition rstrip (s : str) : str := rev (lstrip (rev s)).

(** [s.strip()] *)
Definition strip (s : str) : str := rstrip (lstrip s).

(** [str.lower] on one code point.  Exact on ASCII and on U+212A KELVIN
    SIGN, the one code point outside ASCII whose lower case is an ASCII
    letter; every other code point is left as it is.  The program only
    compares lowered text with ASCII literals, and that comparison is
    decided exactly by this model. *)
Definition lower_char (c : char) : char :=
  (if (65 <=? c) && (c <=? 90) then c + 32
   else if c =? 8490 then 107
   else c)%N.

Definition lower (s : str) : str := map lower_char s.

Definition byte_of_N (n : N) : byte :=
  match Byte.of_N n with
  | Some b => b
  | None => x00
  end.

(** [c.isascii()], [s.isascii()], and the octets of ASCII text. *)
Definition isascii (c : char) : bool := (c <? 128)%N.
Definition str_isascii (s : str) : bool := forallb isascii s.
Definition ascii_bytes (s : str) : bytes := map byte_of_N s.

(** ** Integers as text *)

(** [str(n)] for a non-negative [n] *)
Definition str_of_N (n : N) : str :=
  lit (NilZero.string_of_uint (N.to_uint n)).

(** [str(z)] *)
Definition str_of_Z (z : Z) : str :=
  lit (NilZero.string_of_int (Z.to_int z)).

(** [f"{n:02d}"] for a non-negative [n] *)
Definition pad2 (n : N) : str :=
  if (n <? 10)%N then lit "0" ++ str_of_N n else str_of_N n.

(** ** UTF-8 *)

Definition is_cont (b : byte) : bool :=
  let n := Byte.to_N b in ((128 <=? n) && (n <=? 191))%N.

(** The range of the second octet after lead octet [n0] of a three-octet
    sequence (no overlong forms, no surrogates). *)
Definition second3_ok (n0 : N) (b : byte) : bool :=
  let n := Byte.to_N b in
  (if n0 =? 224 then (160 <=? n) && (n <=? 191)
   else if n0 =? 237 then (128 <=? n) && (n <=? 159)
   else (128 <=? n) && (n <=? 191))%N.

(** The same for a four-octet sequence (no overlong forms, nothing above
    U+10FFFF). *)
Definition second4_ok (n0 : N) (b : byte) : bool :=
  let n := Byte.to_N b in
  (if n0 =? 240 then (144 <=? n) && (n <=? 191)
   else if n0 =? 244 then (128 <=? n) && (n <=? 143)
   else (128 <=? n) && (n <=? 191))%N.

Definition low6 (b : byte) : N := (Byte.to_N b mod 64)%N.

(** One pass of the decoder: [Some c] for each well-formed sequence, [None]
    for each ill-formed stretch. *)
Fixpoint utf8_scan (bs : bytes) : list (option char) :=
  match bs with
  | [] => []
  | b0 :: r0 =>
      let n0 := Byte.to_N b0 in
      if (n0 <? 128)%N then Some n0 :: utf8_scan r0
      else if (n0 <? 194)%N then None :: utf8_scan r0
      else if (n0 <? 224)%N then
        match r0 with
        | [] => [None]
        | b1 :: r1 =>
            if is_cont b1
            then Some ((n0 mod 32) * 64 + low6 b1)%N :: utf8_scan r1
            else None :: utf8_scan r0
        end
      else if (n0 <? 240)%N then
        match r0 with
        | [] => [None]
        | b1 :: r1 =>
            if second3_ok n0 b1 then
              match r1 with
              | [] => [None]
              | b2 :: r2 =>
                  if is_cont b2
                  then Some ((n0 mod 16) * 4096 + low6 b1 * 64 + low6 b2)%N
                         :: utf8_scan r2
                  else None :: utf8_scan r1
              end
            else None :: utf8_scan r0
        end
      else if (n0 <? 245)%N then
        match r0 with
        | [] => [None]
        | b1 :: r1 =>
            if second4_ok n0 b1 then
              match r1 with
              | [] => [None]
              | b2 :: r2 =>
                  if is_cont b2 then
                    match r2 with
                    | [] => [None]
                    | b3 :: r3 =>
                        if is_cont b3
                        then Some ((n0 mod 8) * 262144 + low6 b1 * 4096
                                   + low6 b2 * 64 + low6 b3)%N
                               :: utf8_scan r3
                        else None :: utf8_scan r2
                    end
                  else None :: utf8_scan r1
              end
            else None :: utf8_scan r0
        end
      else None :: utf8_scan r0
  end.

(** [bs.decode('utf-8', errors='ignore')] *)
Fixpoint decode_ignore_items (l : list (option char)) : str :=
  match l with
  | [] => []
  | Some c :: l' => c :: decode_ignore_items l'
  | None :: l' => decode_ignore_items l'
  end.

Definition decode_ignore (bs : bytes) : str :=
  decode_ignore_items (utf8_scan bs).

(** [bs.decode('utf-8', errors='strict')] *)
Fixpoint decode_strict_items (l : list (option char)) : result str :=
  match l with
  | [] => Ok []
  | Some c :: l' => bind (decode_strict_items l') (fun s => Ok (c :: s))
  | None :: l' => Raise UnicodeDecodeError
  end.

Definition decode_strict (bs : bytes) : result str :=
  decode_strict_items (utf8_scan bs).

(** The octets of one code point; surrogates and values that are no code
    point cannot be encoded. *)
Definition encode_char (c : char) : result bytes :=
  (if c <? 128 then Ok [byte_of_N c]
   else if c <? 2048 then
     Ok [byte_of_N (192 + c / 64); byte_of_N (128 + c mod 64)]
   else if (55296 <=? c) && (c <=? 57343) then Raise UnicodeEncodeError
   else if c <? 65536 then
     Ok [byte_of_N (224 + c / 4096); byte_of_N (128 + (c / 64) mod 64);
         byte_of_N (128 + c mod 64)]
   else if c <? 1114112 then
     Ok [byte_of_N (240 + c / 262144); byte_of_N (128 + (c / 4096) mod 64);
         byte_of_N (128 + (c / 64) mod 64); byte_of_N (128 + c mod 64)]
   else Raise UnicodeEncodeError)%N.

(** [s.encode('utf-8')] *)
Fixpoint encode (s : str) : result bytes :=
  match s with
  | [] => Ok []
  | c :: s' =>
      bind (encode_char c) (fun bc =>
      bind (encode s') (fun bs => Ok (bc ++ bs)))
  end.

(** ** [dict] with string keys

    Python dictionaries keep insertion order: assigning to a key that is
    present replaces its value in place, assigning to a new key appends. *)
Definition dict := list (str * str).

Fixpoint dict_set (d : dict) (k v : str) : dict :=
  match d with
  | [] => [(k, v)]
  | (k', v') :: d' =>
      if str_eqb k' k then (k', v) :: d' else (k', v') :: dict_set d' k v
  end.

Fixpoint dict_get (d : dict) (k : str) : option str :=
  match d with
  | [] => None
  | (k', v') :: d' => if str_eqb k' k then Some v' else dict_get d' k
  end.

(** [k in d] *)
Definition dict_mem (d : dict) (k : str) : bool :=
  match dict_get d k with
  | Some _ => true
  | None => false
  end.

(** [d.get(k, default)] *)
Definition dict_get_default (d : dict) (k default : str) : str :=
  match dict_get d k with
  | Some v => v
  | None => default
  end.

End Py.

(* ================================================================== *)
(** * src/http_parser.py *)
(* ================================================================== *)

Module http_parser.
Import Py.

Record HTTPRequest : Type := {
  method : str;
  path : str;
  version : str;
  headers : dict;
  body : option bytes
}.

(** [b'\r\n\r\n'] *)
Definition blank_line : bytes := [x0d; x0a; x0d; x0a].

(** The loop over [lines[1:]], started with the headers collected so far. *)
Fixpoint parse_header_lines (lines : list str) (headers : dict) : result dict :=
  match lines with
  | [] => Ok headers
  | line :: rest =>
      match line with
      | [] => parse_header_lines rest headers
      | _ :: _ =>
          if negb (contains N.eqb line (lit ":")) then Raise ValueError
          else
            match split1 N.eqb line (lit ":") with
            | [key; value] =>
                parse_header_lines rest (dict_set headers (strip key) (strip value))
            | _ => Raise ValueError
            end
      end
  end.

(** [header_data]: what comes before the first blank line. *)
Definition header_data (data : bytes) : bytes :=
  hd [] (split1 Byte.eqb data blank_line).

(** [lines]: the header section, decoded and cut at every CR LF. *)
Definition lines (data : bytes) : list str :=
  split N.eqb (decode_ignore (header_data data)) CRLF.

(** The body of the [try] statement. *)
Definition parse_http_request_try (data : bytes) : result HTTPRequest :=
  let parts := split1 Byte.eqb data blank_line in
  let body := if (1 <? List.length parts)%nat then nth 1 parts [] else [] in
  match lines data with
  | [] => Raise ValueError
  | first :: others =>
      match split N.eqb first (lit " ") with
      | [method; path; version] =>
          if negb (startswith N.eqb version (lit "HTTP/")) then Raise ValueError
          else
            headers <- parse_header_lines others [] ;;
            Ok {| method := method;
                  path := path;
                  version := version;
                  headers := headers;
                  body := match body with [] => None | _ :: _ => Some body end |}
      | _ => Raise ValueError
      end
  end.

(** Whatever the body raises is raised again as [ValueError]. *)
Definition parse_http_request (data : bytes) : result HTTPRequest :=
  try_except (parse_http_request_try data) (fun _ => Raise ValueError).

End http_parser.

(* ================================================================== *)
(** * src/http_response.py *)
(* ================================================================== *)

Module http_response.
Import Py.

(** What [datetime.utcnow()] returned; [weekday] stands for the method
    [now.weekday()] (Monday is 0).  A [datetime] has [1 <= month <= 12]
    and [weekday <= 6]. *)
Record datetime : Type := {
  year : N;
  month : N;
  day : N;
  hour : N;
  minute : N;
  second : N;
  weekday : N
}.

Definition weekday_names : list str :=
  [lit "Mon"; lit "Tue"; lit "Wed"; lit "Thu"; lit "Fri"; lit "Sat"; lit "Sun"].

Definition month_names : list str :=
  [lit "Jan"; lit "Feb"; lit "Mar"; lit "Apr"; lit "May"; lit "Jun";
   lit "Jul"; lit "Aug"; lit "Sep"; lit "Oct"; lit "Nov"; lit "Dec"].

Definition _format_date (now : datetime) : str :=
  let weekday := nth (N.to_nat (weekday now)) weekday_names [] in
  let month_name := nth (N.to_nat (month now - 1)) month_names [] in
  weekday ++ lit ", " ++ pad2 (day now) ++ lit " " ++ month_name ++ lit " "
    ++ str_of_N (year now) ++ lit " " ++ pad2 (hour now) ++ lit ":"
    ++ pad2 (minute now) ++ lit ":" ++ pad2 (second now) ++ lit " GMT".

Definition STATUS_MESSAGES : list (Z * str) :=
  [(200%Z, lit "OK");
   (400%Z, lit "Bad Request");
   (403%Z, lit "Forbidden");
   (404%Z, lit "Not Found");
   (405%Z, lit "Method Not Allowed");
   (500%Z, lit "Internal Server Error")].

(** [STATUS_MESSAGES.get(code, default)] *)
Fixpoint status_get (table : list (Z * str)) (code : Z) (default : str) : str :=
  match table with
  | [] => default
  | (c, m) :: table' => if (c =? code)%Z then m else status_get table' code default
  end.

Record HTTPResponse : Type := {
  status_code : Z;
  status_message : str;
  headers : dict;
  body : option bytes
}.

Definition add_header (self : HTTPResponse) (name value : str) : HTTPResponse :=
  {| status_code := status_code self;
     status_message := status_message self;
     headers := dict_set (headers self) name value;
     body := body self |}.

Definition set_body (self : HTTPResponse) (b : option bytes) : HTTPResponse :=
  {| status_code := status_code self;
     status_message := status_message self;
     headers := headers self;
     body := b |}.

(** [HTTPResponse(status_code, status_message)], built at time [now]. *)
Definition init (now : datetime) (code : Z) (message : option str) : HTTPResponse :=
  let message :=
    match message with
    | Some (c :: m) => c :: m
    | Some [] | None => status_get STATUS_MESSAGES code (lit "Unknown")
    end in
  let self := {| status_code := code; status_message := message;
                 headers := []; body := None |} in
  let self := add_header self (lit "Server") (lit "OTUS-HTTPServer/0.1") in
  let self := add_header self (lit "Date") (_format_date now) in
  add_header self (lit "Connection") (lit "keep-alive").

(** [if self.body:] holds for a body that is set and not empty. *)
Definition has_body (self : HTTPResponse) : bool :=
  match body self with
  | Some (_ :: _) => true
  | Some [] | None => false
  end.

Definition body_bytes (self : HTTPResponse) : bytes :=
  match body self with
  | Some b => b
  | None => []
  end.

Definition status_line (self : HTTPResponse) : str :=
  lit "HTTP/1.1 " ++ str_of_Z (status_code self) ++ lit " " ++ status_message self.

(** [header_lines] as it stands after the [for] loop of [to_bytes]. *)
Definition header_lines (self : HTTPResponse) : list str :=
  status_line self
    :: map (fun nv => fst nv ++ lit ": " ++ snd nv) (headers self).

Definition error_body (self : HTTPResponse) : str :=
  lit "<html><body><h1>" ++ str_of_Z (status_code self) ++ lit " "
    ++ status_message self ++ lit "</h1></body></html>".

(** The two branches after the loop: they change [self], they do not touch
    [header_lines]. *)
Definition fill_content_length (self : HTTPResponse) : result HTTPResponse :=
  if has_body self then
    if negb (dict_mem (headers self) (lit "Content-Length"))
    then Ok (add_header self (lit "Content-Length")
               (str_of_N (N.of_nat (List.length (body_bytes self)))))
    else Ok self
  else
    if (400 <=? status_code self)%Z
       && negb (dict_mem (headers self) (lit "Content-Length"))
    then
      b <- encode (error_body self) ;;
      let self := set_body self (Some b) in
      let self := add_header self (lit "Content-Length")
                    (str_of_N (N.of_nat (List.length (body_bytes self)))) in
      Ok (add_header self (lit "Content-Type") (lit "text/html"))
    else Ok self.

(** [self.to_bytes()]: the bytes returned, and [self] as the call leaves
    it. *)
Definition to_bytes (self : HTTPResponse) : result (bytes * HTTPResponse) :=
  let header_lines := header_lines self in
  self <- fill_content_length self ;;
  let headers := join CRLF header_lines ++ CRLF ++ CRLF in
  response <- encode headers ;;
  Ok (if has_body self then response ++ body_bytes self else response, self).

(** A response whose status message, header names and header values are
    ASCII text. *)
Definition ascii_response (self : HTTPResponse) : bool :=
  str_isascii (status_message self)
  && forallb (fun nv => str_isascii (fst nv) && str_isascii (snd nv)) (headers self).

(** What follows the header block on the wire when [self] is serialized:
    the body when there is one, the synthesized page for an error without
    [Content-Length], nothing otherwise. *)
Definition payload (self : HTTPResponse) : bytes :=
  if has_body self then body_bytes self
  else if (400 <=? status_code self)%Z
          && negb (dict_mem (headers self) (lit "Content-Length"))
       then ascii_bytes (error_body self)
       else [].

End http_response.

(* ================================================================== *)
(** * src/utils.py *)
(* ================================================================== *)

Module utils.
Import Py.

Definition MIME_TYPES : dict :=
  [(lit ".html", lit "text/html");
   (lit ".css", lit "text/css");
   (lit ".js", lit "application/javascript");
   (lit ".jpg", lit "image/jpeg");
   (lit ".jpeg", lit "image/jpeg");
   (lit ".png", lit "image/png");
   (lit ".gif", lit "image/gif");
   (lit ".swf", lit "application/x-shockwave-flash");
   (lit ".txt", lit "text/plain");
   (lit ".json", lit "application/json");
   (lit ".xml", lit "application/xml");
   (lit ".ico", lit "image/x-icon")].

Definition get_content_type (extension : str) : str :=
  dict_get_default MIME_TYPES (lower extension) (lit "application/octet-stream").

(** ** [urllib.parse.unquote(path, errors='strict')] *)

Definition is_hexdig (c : char) : bool :=
  ((48 <=? c) && (c <=? 57) || (65 <=? c) && (c <=? 70)
   || (97 <=? c) && (c <=? 102))%N.

Definition hexval (c : char) : N :=
  (if c <=? 57 then c - 48 else if c <=? 70 then c - 55 else c - 87)%N.

Definition PERCENT : char := 37%N.

(** [unquote_to_bytes] on ASCII text: [%XX] with two hexadecimal digits
    becomes one octet, any other [%] stays. *)
Fixpoint unquote_to_bytes (s : str) : bytes :=
  match s with
  | [] => []
  | c :: s' =>
      if (c =? PERCENT)%N then
        match s' with
        | h1 :: h2 :: rest =>
            if is_hexdig h1 && is_hexdig h2
            then byte_of_N (16 * hexval h1 + hexval h2) :: unquote_to_bytes rest
            else byte_of_N c :: unquote_to_bytes s'
        | _ => byte_of_N c :: unquote_to_bytes s'
        end
      else byte_of_N c :: unquote_to_bytes s'
  end.

(** The text cut into maximal runs of ASCII and of non-ASCII code points,
    each run tagged with [isascii]. *)
Fixpoint ascii_runs (s : str) : list (bool * str) :=
  match s with
  | [] => []
  | c :: s' =>
      match ascii_runs s' with
      | (b, r) :: rs =>
          if Bool.eqb b (isascii c) then (b, c :: r) :: rs
          else (isascii c, [c]) :: (b, r) :: rs
      | [] => [(isascii c, [c])]
      end
  end.

(** ASCII runs are unquoted and decoded, the others are kept. *)
Fixpoint unquote_runs (rs : list (bool * str)) : result str :=
  match rs with
  | [] => Ok []
  | (true, r) :: rs' =>
      t <- decode_strict (unquote_to_bytes r) ;;
      u <- unquote_runs rs' ;;
      Ok (t ++ u)
  | (false, r) :: rs' =>
      u <- unquote_runs rs' ;;
      Ok (r ++ u)
  end.

Definition unquote (s : str) : result str :=
  if negb (contains N.eqb s [PERCENT]) then Ok s
  else unquote_runs (ascii_runs s).

Definition url_decode (path : str) : result str :=
  try_except (unquote path) (fun _ => Raise ValueError).

End utils.

(* ================================================================== *)
(** * pathlib and the file system *)
(* ================================================================== *)

Module pathlib.
Import Py.

(** A [Path] is kept as [str(path)]. *)
Definition Path := str.

Definition SLASH : char := 47%N.
Definition DOT : char := 46%N.

(** [posixpath.join(a, b)] *)
Definition os_path_join (a b : str) : str :=
  if startswith N.eqb b [SLASH] then b
  else
    match a with
    | [] => b
    | _ :: _ => if endswith N.eqb a [SLASH] then a ++ b else a ++ [SLASH] ++ b
    end.

(** [posixpath.splitroot(p)], without the drive: the root ([""], ["/"] or
    ["//"]) and the rest. *)
Definition splitroot (p : str) : str * str :=
  match p with
  | c0 :: p1 =>
      if (c0 =? SLASH)%N then
        match p1 with
        | c1 :: p2 =>
            if (c1 =? SLASH)%N then
              match p2 with
              | c2 :: _ => if (c2 =? SLASH)%N then ([SLASH], p1) else ([SLASH; SLASH], p2)
              | [] => ([SLASH; SLASH], p2)
              end
            else ([SLASH], p1)
        | [] => ([SLASH], p1)
        end
      else ([], p)
  | [] => ([], p)
  end.

Definition is_part (x : str) : bool :=
  negb (str_eqb x []) && negb (str_eqb x [DOT]).

(** [str(PurePosixPath(p))]: empty and ["."] components are dropped. *)
Definition normalize (p : str) : Path :=
  let (root, tail) := splitroot p in
  let parts := filter is_part (split N.eqb tail [SLASH]) in
  match root ++ join [SLASH] parts with
  | [] => [DOT]
  | c :: s => c :: s
  end.

(** [p / segment] *)
Definition truediv (p : Path) (segment : str) : Path :=
  normalize (os_path_join p segment).

(** [p.name] *)
Definition name (p : Path) : str :=
  let (_, tail) := splitroot p in
  last (filter is_part (split N.eqb tail [SLASH])) [].

(** [s.rfind('.')] *)
Fixpoint rfind_dot (s : str) : option nat :=
  match s with
  | [] => None
  | c :: s' =>
      match rfind_dot s' with
      | Some i => Some (S i)
      | None => if (c =? DOT)%N then Some O else None
      end
  end.

(** [p.suffix] *)
Definition suffix (p : Path) : str :=
  let name := name p in
  match rfind_dot name with
  | Some i =>
      if (0 <? i)%nat && (i <? List.length name - 1)%nat then skipn i name else []
  | None => []
  end.

(** The file system as the handler sees it: the [Path] methods that ask
    the operating system, each of which may raise. *)
Record FileSystem : Type := {
  is_dir : Path -> result bool;
  exists_ : Path -> result bool;
  is_file : Path -> result bool;
  resolve : Path -> result Path;
  read_bytes : Path -> result bytes
}.

End pathlib.

(* ================================================================== *)
(** * src/server.py *)
(* ================================================================== *)

Module server.
Import Py pathlib.
Import http_response (datetime, HTTPResponse, init, add_header, set_body, to_bytes).
Import http_parser (HTTPRequest, parse_http_request).

(** What one [await reader.read(8192)] under [wait_for] gave. *)
Inductive read_outcome : Type :=
| ReadTimeout
| ReadError
| ReadData (data : bytes).

(** One pass of the [while True] loop of [handle_client], as its
    surroundings decide it: the outcome of the read, the clock when the
    response is built, and whether [writer.drain()] returns. *)
Record pass : Type := {
  read : read_outcome;
  clock : datetime;
  drain_ok : bool
}.

(** Where the connection stands after a pass: back at the read, or left
    through [break] or an exception (the [finally] block closes the
    writer). *)
Inductive conn_state : Set :=
| Reading
| Closing.

(** The response [handle_request] builds for a file it has read, as it is
    before the body is attached: 200 with [Content-Type] and
    [Content-Length]. *)
Definition file_response (now : datetime) (file_path : Path) (content : bytes)
  : HTTPResponse :=
  add_header
    (add_header (init now 200 (Some (lit "OK")))
       (lit "Content-Type") (utils.get_content_type (suffix file_path)))
    (lit "Content-Length") (str_of_N (N.of_nat (List.length content))).

Section HTTPServer.
(** [self.document_root] (absolute and resolved) and the file system the
    server runs on. *)
Variable fs : FileSystem.
Variable document_root : Path.

Definition remove_query_string (path : str) : str :=
  if contains N.eqb path (lit "?")
  then hd [] (split N.eqb path (lit "?"))
  else path.

Definition remove_leading_slash (path : str) : str :=
  if startswith N.eqb path (lit "/") then skipn 1 path else path.

(** From "Check if it's a regular file" to the end of the [try] block. *)
Definition serve_file (now : datetime) (method : str) (file_path : Path)
  : result HTTPResponse :=
  regular <- is_file fs file_path ;;
  if negb regular then Ok (init now 403 (Some (lit "Forbidden")))
  else
    match read_bytes fs file_path with
    | Raise e =>
        if is_PermissionError e
        then Ok (init now 403 (Some (lit "Forbidden")))
        else Ok (init now 500 (Some (lit "Internal Server Error")))
    | Ok content =>
        let response := init now 200 (Some (lit "OK")) in
        let content_type := utils.get_content_type (suffix file_path) in
        let response := add_header response (lit "Content-Type") content_type in
        let response :=
          add_header response (lit "Content-Length")
            (str_of_N (N.of_nat (List.length content))) in
        if str_eqb method (lit "GET")
        then Ok (set_body response (Some content))
        else Ok response
    end.

(** The body of the [try] block. *)
Definition handle_request_try (now : datetime) (method : str) (file_path : Path)
  : result HTTPResponse :=
  file_path <- resolve fs file_path ;;
  if negb (startswith N.eqb file_path document_root)
  then Ok (init now 403 (Some (lit "Forbidden")))
  else
    present <- exists_ fs file_path ;;
    if negb present then Ok (init now 404 (Some (lit "Not Found")))
    else
      directory <- is_dir fs file_path ;;
      if directory then
        let index_path := truediv file_path (lit "index.html") in
        index_present <- exists_ fs index_path ;;
        index_regular <- (if index_present then is_file fs index_path else Ok false) ;;
        if index_regular
        then serve_file now method index_path
        else Ok (init now 404 (Some (lit "Forbidden")))
      else serve_file now method file_path.

Definition handle_request (now : datetime) (request : HTTPRequest)
  : result HTTPResponse :=
  let method := http_parser.method request in
  if negb (str_eqb method (lit "GET") || str_eqb method (lit "HEAD"))
  then Ok (init now 405 (Some (lit "Method Not Allowed")))
  else
    match utils.url_decode (http_parser.path request) with
    | Raise e =>
        if is_ValueError e
        then Ok (init now 400 (Some (lit "Bad Request")))
        else Raise e
    | Ok path =>
        let path := remove_query_string path in
        if contains N.eqb path (lit "../")
        then Ok (init now 403 (Some (lit "Forbidden")))
        else
          let path := remove_leading_slash path in
          let ends_with_slash := endswith N.eqb path (lit "/") in
          let file_path := truediv document_root path in
          directory <- (if ends_with_slash then is_dir fs file_path else Ok true) ;;
          if negb directory then Ok (init now 404 (Some (lit "Not Found")))
          else
            try_except (handle_request_try now method file_path)
              (fun _ => Ok (init now 500 (Some (lit "Internal Server Error"))))
    end.

(** [request.headers.get('Connection', '').lower()] *)
Definition connection_header (request : HTTPRequest) : str :=
  lower (dict_get_default (http_parser.headers request) (lit "Connection") []).

(** One pass of the loop of [handle_client]: what was handed to
    [writer.write], and where the connection stands. *)
Definition loop_body (p : pass) : list bytes * conn_state :=
  match read p with
  | ReadTimeout => ([], Closing)
  | ReadError => ([], Closing)
  | ReadData [] => ([], Closing)
  | ReadData ((_ :: _) as data) =>
      match parse_http_request data with
      | Raise e =>
          if is_ValueError e then
            match to_bytes (init (clock p) 400 (Some (lit "Bad Request"))) with
            | Ok (wire, _) => ([wire], Closing)
            | Raise _ => ([], Closing)
            end
          else ([], Closing)
      | Ok request =>
          match handle_request (clock p) request with
          | Raise _ => ([], Closing)
          | Ok response =>
              match to_bytes response with
              | Raise _ => ([], Closing)
              | Ok (wire, _) =>
                  if negb (drain_ok p) then ([wire], Closing)
                  else if str_eqb (connection_header request) (lit "close")
                  then ([wire], Closing)
                  else if str_eqb (http_parser.version request) (lit "HTTP/1.0")
                          && negb (str_eqb (connection_header request) (lit "keep-alive"))
                  then ([wire], Closing)
                  else ([wire], Reading)
              end
          end
      end
  end.

(** [handle_client] over the passes the connection lives through: all
    that was written, and the state once the passes are used up or the
    loop was left. *)
Fixpoint handle_client (passes : list pass) : list bytes * conn_state :=
  match passes with
  | [] => ([], Reading)
  | p :: rest =>
      match loop_body p with
      | (written, Closing) => (written, Closing)
      | (written, Reading) =>
          let (later, state) := handle_client rest in
          (written ++ later, state)
      end
  end.

End HTTPServer.

End server.

(* ================================================================== *)
(** * A small file system to run the model on *)
(* ================================================================== *)

Module demo.
Import Py pathlib.

(** The tree: a document root [/srv/www] with an [index.html], a directory
    [docs] that has no index, and a symbolic link [link] that points out
    of the root, to [/etc]. *)
Inductive kind : Type :=
| Directory
| Regular (content : bytes).

Definition document_root : Path := lit "/srv/www".

Definition entries : list (Path * kind) :=
  [(lit "/srv", Directory);
   (lit "/srv/www", Directory);
   (lit "/srv/www/index.html", Regular (blit "<h1>It works</h1>"));
   (lit "/srv/www/docs", Directory);
   (lit "/srv/www/docs/guide.txt", Regular (blit "read me"));
   (lit "/etc", Directory);
   (lit "/etc/passwd", Regular (blit "root:x:0:0"))].

Definition links : list (Path * Path) :=
  [(lit "/srv/www/link", lit "/etc")].

Fixpoint lookup {B : Type} (table : list (Path * B)) (p : Path) : option B :=
  match table with
  | [] => None
  | (q, b) :: table' => if str_eqb q p then Some b else lookup table' p
  end.

Definition components (p : Path) : list str :=
  filter is_part (split N.eqb p [SLASH]).

Definition of_components (cs : list str) : Path :=
  SLASH :: join [SLASH] cs.

(** One component further along an absolute path: [..] goes up, a link is
    replaced by its target. *)
Definition walk (here : list str) (c : str) : list str :=
  if str_eqb c (lit "..") then removelast here
  else
    let there := here ++ [c] in
    match lookup links (of_components there) with
    | Some target => components target
    | None => there
    end.

Definition resolve_path (p : Path) : Path :=
  of_components (fold_left walk (components p) []).

Definition kind_of (p : Path) : option kind :=
  lookup entries (resolve_path p).

Definition fs : FileSystem :=
  {| is_dir := fun p =>
       Ok match kind_of p with Some Directory => true | _ => false end;
     exists_ := fun p =>
       Ok match kind_of p with Some _ => true | None => false end;
     is_file := fun p =>
       Ok match kind_of p with Some (Regular _) => true | _ => false end;
     resolve := fun p => Ok (resolve_path p);
     read_bytes := fun p =>
       match kind_of p with
       | Some (Regular content) => Ok content
       | _ => Raise OSError
       end |}.

(** Wednesday, 9 June 2021, 10:18:14 UTC. *)
Definition now : http_response.datetime :=
  {| http_response.year := 2021; http_response.month := 6;
     http_response.day := 9; http_response.hour := 10;
     http_response.minute := 18; http_response.second := 14;
     http_response.weekday := 2 |}.

Definition bCRLF : bytes := [x0d; x0a].

(** A message with the given start line and header lines, and no body. *)
Definition message (request_line : string) (header_lines : list string) : bytes :=
  blit request_line ++ bCRLF
    ++ List.concat (map (fun h => blit h ++ bCRLF) header_lines) ++ bCRLF.

Definition request (method path : string) : http_parser.HTTPRequest :=
  {| http_parser.method := lit method;
     http_parser.path := lit path;
     http_parser.version := lit "HTTP/1.1";
     http_parser.headers := [];
     http_parser.body := None |}.

(** A pass of the connection loop that reads [data] and can write. *)
Definition pass_of (data : bytes) : server.pass :=
  {| server.read := server.ReadData data;
     server.clock := now;
     server.drain_ok := true |}.

(** Two requests for one connection: the first asks to keep it, the second
    to close it. *)
Definition keep_then_close : list server.pass :=
  [pass_of (message "GET /index.html HTTP/1.0" ["Connection: Keep-Alive"]%string);
   pass_of (message "GET /index.html HTTP/1.1" ["Connection: close"]%string)].

(** A request that names the header [X-Tag] twice. *)
Definition tagged_request : bytes :=
  message "GET / HTTP/1.1" ["X-Tag: 1"; "Host: example"; "X-Tag: 2"]%string.

End demo.

(* ================================================================== *)
(** * Further definitions used in statements *)
(* ================================================================== *)

Module fixtures.
Import Py pathlib.

(** How the results of the handler for a GET and for a HEAD request stand
    to each other when the HEAD result is the GET result without its
    body. *)
Definition head_mirrors (get head : result http_response.HTTPResponse) : Prop :=
  match get, head with
  | Ok response_get, Ok response_head =>
      http_response.status_code response_head
      = http_response.status_code response_get /\
      http_response.status_message response_head
      = http_response.status_message response_get /\
      http_response.headers response_head = http_response.headers response_get /\
      http_response.body response_head = None
  | Raise e, Raise e' => e = e'
  | _, _ => False
  end.

(** The file system of [demo], except that asking whether a path is a
    directory is refused. *)
Definition locked_fs : FileSystem :=
  {| is_dir := fun _ => Raise PermissionError;
     exists_ := exists_ demo.fs;
     is_file := is_file demo.fs;
     resolve := resolve demo.fs;
     read_bytes := read_bytes demo.fs |}.

(** A message with a body. *)
Definition with_body : bytes :=
  demo.message "GET /index.html HTTP/1.1" ["Host: example"%string]
    ++ blit "payload".

(** A response with a body and no [Content-Length]. *)
Definition hello : http_response.HTTPResponse :=
  http_response.set_body (http_response.init demo.now 200 None)
    (Some (blit "hello")).

End fixtures.

(* ================================================================== *)
(** * Facts about the sequence operations *)
(* ================================================================== *)

Section SeqFacts.
Context {A : Type} (eqb : A -> A -> bool).
Hypothesis eqb_eq : forall x y, eqb x y = true <-> x = y.

Lemma eqb_refl_true x : eqb x x = true.
Proof. now apply eqb_eq. Qed.

Lemma seq_eqb_eq s t : Py.seq_eqb eqb s t = true <-> s = t.
Proof.
  revert t; induction s as [|x s IH]; intros [|y t]; simpl.
  - split; reflexivity.
  - split; discriminate.
  - split; discriminate.
  - rewrite andb_true_iff, eqb_eq, IH. split.
    + intros [-> ->]. reflexivity.
    + intros H. injection H. auto.
Qed.

Lemma remove_prefix_Some s p r :
  Py.remove_prefix eqb s p = Some r <-> s = p ++ r.
Proof.
  revert s; induction p as [|y p IH]; intros s; simpl.
  - split; congruence.
  - destruct s as [|x s]; [split; discriminate|].
    destruct (eqb x y) eqn:E.
    + apply eqb_eq in E. subst y. rewrite IH. split; congruence.
    + split; [discriminate|]. intros H. injection H as -> _.
      rewrite eqb_refl_true in E. discriminate.
Qed.

Lemma remove_prefix_app p r : Py.remove_prefix eqb (p ++ r) p = Some r.
Proof. now apply remove_prefix_Some. Qed.

Lemma startswith_true s p :
  Py.startswith eqb s p = true <-> exists r, s = p ++ r.
Proof.
  unfold Py.startswith.
  destruct (Py.remove_prefix eqb s p) as [r|] eqn:E.
  - apply remove_prefix_Some in E. split; eauto.
  - split; [discriminate|]. intros [r ->].
    rewrite remove_prefix_app in E. discriminate.
Qed.

Lemma partition_Some s sep b a :
  Py.partition eqb s sep = Some (b, a) -> s = b ++ sep ++ a.
Proof.
  revert b; induction s as [|x s IH]; intros b; simpl.
  - destruct (Py.remove_prefix eqb [] sep) as [r|] eqn:E; [|discriminate].
    intros H. injection H as <- <-. now apply remove_prefix_Some in E.
  - destruct (Py.remove_prefix eqb (x :: s) sep) as [r|] eqn:E.
    + intros H. injection H as <- <-. now apply remove_prefix_Some in E.
    + destruct (Py.partition eqb s sep) as [[b' a']|]; [|discriminate].
      intros H. injection H as <- <-. simpl. f_equal. now apply IH.
Qed.

Lemma partition_shorter s sep b a :
  sep <> [] -> Py.partition eqb s sep = Some (b, a) ->
  (List.length a < List.length s)%nat.
Proof.
  intros Hsep H. apply partition_Some in H. subst s.
  destruct sep as [|c sep]; [congruence|].
  rewrite !length_app. simpl. lia.
Qed.

Lemma split_fuel_not_nil fuel s sep : Py.split_fuel eqb fuel s sep <> [].
Proof.
  destruct fuel; simpl; destruct (Py.partition eqb s sep) as [[b a]|];
    discriminate.
Qed.

Lemma join_cons (sep p : list A) (rest : list (list A)) :
  rest <> [] -> Py.join sep (p :: rest) = p ++ sep ++ Py.join sep rest.
Proof. destruct rest; [congruence|reflexivity]. Qed.

Lemma join_split_fuel (sep : list A) :
  sep <> [] ->
  forall fuel s, (List.length s <= fuel)%nat ->
                 Py.join sep (Py.split_fuel eqb fuel s sep) = s.
Proof.
  intros Hsep. induction fuel as [|fuel IH]; intros s Hlen; simpl.
  - destruct (Py.partition eqb s sep) as [[b a]|] eqn:E; reflexivity.
  - destruct (Py.partition eqb s sep) as [[b a]|] eqn:E; [|reflexivity].
    rewrite join_cons by apply split_fuel_not_nil.
    rewrite IH.
    + symmetry. now apply partition_Some.
    + apply partition_shorter in E; [lia|assumption].
Qed.

(** Joining the pieces of a split with the separator gives the text
    back. *)
Lemma join_split s sep : sep <> [] -> Py.join sep (Py.split eqb s sep) = s.
Proof. intros Hsep. now apply join_split_fuel. Qed.

(** ** Separators of one element *)

Lemma partition_one_None s c : Py.partition eqb s [c] = None <-> ~ In c s.
Proof.
  induction s as [|x s IH]; simpl.
  - split; auto.
  - destruct (eqb x c) eqn:E.
    + apply eqb_eq in E. split; [discriminate|]. intros H. exfalso. auto.
    + destruct (Py.partition eqb s [c]) as [[b a]|].
      * split; [discriminate|]. intros H. exfalso.
        assert (Hs : ~ In c s) by tauto. apply IH in Hs. discriminate.
      * split; [|reflexivity]. intros _ [H|H].
        -- subst x. rewrite eqb_refl_true in E. discriminate.
        -- now apply IH in H.
Qed.

Lemma partition_one_Some s c b a :
  Py.partition eqb s [c] = Some (b, a) -> s = b ++ c :: a /\ ~ In c b.
Proof.
  intros H. split; [now apply partition_Some in H|].
  revert b H; induction s as [|x s IH]; intros b; simpl; [discriminate|].
  destruct (eqb x c) eqn:E.
  - intros H. injection H as <- _. auto.
  - destruct (Py.partition eqb s [c]) as [[b' a']|]; [|discriminate].
    intros H. injection H as <- <-. intros [Hx|Hb].
    + subst x. rewrite eqb_refl_true in E. discriminate.
    + now apply (IH b').
Qed.

Lemma partition_one_app b c a :
  ~ In c b -> Py.partition eqb (b ++ c :: a) [c] = Some (b, a).
Proof.
  induction b as [|x b IH]; simpl; intros H.
  - now rewrite eqb_refl_true.
  - destruct (eqb x c) eqn:E.
    + apply eqb_eq in E. tauto.
    + rewrite IH by tauto. reflexivity.
Qed.

Lemma contains_one s c : Py.contains eqb s [c] = true <-> In c s.
Proof.
  unfold Py.contains.
  destruct (Py.partition eqb s [c]) as [[b a]|] eqn:E.
  - apply partition_one_Some in E as [-> _]. split; [|reflexivity].
    intros _. apply in_or_app. right. now left.
  - apply partition_one_None in E. split; [discriminate|tauto].
Qed.

Lemma split_fuel_one_clean c :
  forall fuel s, (List.length s <= fuel)%nat ->
                 Forall (fun t => ~ In c t) (Py.split_fuel eqb fuel s [c]).
Proof.
  induction fuel as [|fuel IH]; intros s Hlen; simpl.
  - destruct s; [|simpl in Hlen; lia]. simpl. constructor; auto.
  - destruct (Py.partition eqb s [c]) as [[b a]|] eqn:E.
    + pose proof (partition_shorter s [c] b a ltac:(discriminate) E).
      apply partition_one_Some in E as [_ Hb].
      constructor; [assumption|]. apply IH. lia.
    + apply partition_one_None in E. constructor; auto.
Qed.

(** No piece of a split at one element holds that element. *)
Lemma split_one_clean s c : Forall (fun t => ~ In c t) (Py.split eqb s [c]).
Proof. now apply split_fuel_one_clean. Qed.
End SeqFacts.

Lemma str_eqb_eq (s t : Py.str) : Py.str_eqb s t = true <-> s = t.
Proof. apply seq_eqb_eq. apply N.eqb_eq. Qed.

Lemma str_eqb_refl (s : Py.str) : Py.str_eqb s s = true.
Proof. now apply str_eqb_eq. Qed.

Lemma str_eqb_neq (s t : Py.str) : Py.str_eqb s t = false <-> s <> t.
Proof.
  rewrite <- str_eqb_eq. destruct (Py.str_eqb s t); split; congruence.
Qed.

(* ================================================================== *)
(** * Facts about dictionaries *)
(* ================================================================== *)

Lemma dict_get_set_same (d : Py.dict) (k v : Py.str) :
  Py.dict_get (Py.dict_set d k v) k = Some v.
Proof.
  induction d as [|[k' v'] d IH]; simpl.
  - now rewrite str_eqb_refl.
  - destruct (Py.str_eqb k' k) eqn:E; simpl; rewrite E; auto.
Qed.

Lemma dict_get_set_other (d : Py.dict) (k v k0 : Py.str) :
  k <> k0 -> Py.dict_get (Py.dict_set d k v) k0 = Py.dict_get d k0.
Proof.
  intros Hk. induction d as [|[k' v'] d IH]; simpl.
  - apply str_eqb_neq in Hk. now rewrite Hk.
  - destruct (Py.str_eqb k' k) eqn:E; simpl.
    + apply str_eqb_eq in E. subst k'.
      apply str_eqb_neq in Hk. now rewrite Hk.
    + now rewrite IH.
Qed.

Lemma dict_mem_set (d : Py.dict) (k v k0 : Py.str) :
  Py.dict_mem (Py.dict_set d k v) k0 = true <->
  k = k0 \/ Py.dict_mem d k0 = true.
Proof.
  unfold Py.dict_mem.
  destruct (Py.str_eqb k k0) eqn:E.
  - apply str_eqb_eq in E. subst k0. rewrite dict_get_set_same. tauto.
  - apply str_eqb_neq in E. rewrite dict_get_set_other by assumption. tauto.
Qed.

Lemma in_dict_set (d : Py.dict) (k v n x : Py.str) :
  In (n, x) (Py.dict_set d k v) -> (n = k /\ x = v) \/ In (n, x) d.
Proof.
  induction d as [|[k' v'] d IH]; simpl.
  - intros [H|[]]. injection H as <- <-. auto.
  - destruct (Py.str_eqb k' k) eqn:E; simpl.
    + apply str_eqb_eq in E. subst k'. intros [H|H]; [|auto].
      injection H as <- <-. auto.
    + intros [H|H]; [auto|]. apply IH in H. tauto.
Qed.

(* ================================================================== *)
(** * Facts about [strip] *)
(* ================================================================== *)

Lemma lstrip_suffix (s : Py.str) :
  exists blanks, s = blanks ++ Py.lstrip s /\ forallb Py.isspace blanks = true.
Proof.
  induction s as [|c s (blanks & IH & Hblanks)]; simpl.
  - exists []. auto.
  - destruct (Py.isspace c) eqn:Hc.
    + exists (c :: blanks). simpl. rewrite Hc, Hblanks.
      split; [now f_equal|reflexivity].
    + exists []. auto.
Qed.

Lemma lstrip_head (s : Py.str) (c : Py.char) (rest : Py.str) :
  Py.lstrip s = c :: rest -> Py.isspace c = false.
Proof.
  induction s as [|x s IH]; simpl; [discriminate|].
  destruct (Py.isspace x) eqn:Hx; [exact IH|].
  intros H. injection H as <- _. exact Hx.
Qed.

Lemma rstrip_prefix (s : Py.str) :
  exists blanks, s = Py.rstrip s ++ blanks /\ forallb Py.isspace blanks = true.
Proof.
  unfold Py.rstrip. destruct (lstrip_suffix (rev s)) as (blanks & H & Hblanks).
  exists (rev blanks). split.
  - rewrite <- rev_app_distr, <- H. symmetry. apply rev_involutive.
  - rewrite forallb_forall in *. intros x Hx. apply Hblanks.
    now apply in_rev.
Qed.

Lemma rstrip_last (s front : Py.str) (c : Py.char) :
  Py.rstrip s = front ++ [c] -> Py.isspace c = false.
Proof.
  unfold Py.rstrip. intros H.
  apply (f_equal (@rev Py.char)) in H.
  rewrite rev_involutive, rev_app_distr in H. simpl in H.
  now apply lstrip_head in H.
Qed.

(** What [strip] returns neither starts nor ends with white space. *)
Lemma strip_trimmed (s : Py.str) :
  (forall c rest, Py.strip s = c :: rest -> Py.isspace c = false) /\
  (forall front c, Py.strip s = front ++ [c] -> Py.isspace c = false).
Proof.
  unfold Py.strip. split.
  - intros c rest H.
    destruct (rstrip_prefix (Py.lstrip s)) as (blanks & Hs & _).
    rewrite H in Hs. simpl in Hs. now apply lstrip_head in Hs.
  - intros front c H. now apply rstrip_last in H.
Qed.

(* ================================================================== *)
(** * The request parser *)
(* ================================================================== *)

Section ParserFacts.
Import Py http_parser.

(** What a header line with a colon does to the headers. *)
Lemma parse_header_line key value rest headers :
  ~ In COLON key ->
  parse_header_lines ((key ++ [COLON] ++ value) :: rest) headers
  = parse_header_lines rest (dict_set headers (strip key) (strip value)).
Proof.
  intros Hkey. simpl.
  change (lit ":") with [COLON].
  assert (Hin : contains N.eqb (key ++ COLON :: value) [COLON] = true).
  { apply (contains_one N.eqb N.eqb_eq). apply in_or_app. right. now left. }
  destruct (key ++ COLON :: value) as [|c line] eqn:Hline.
  { destruct key; discriminate. }
  rewrite Hin. simpl negb. cbv iota.
  unfold split1. rewrite <- Hline.
  rewrite (partition_one_app N.eqb N.eqb_eq) by assumption.
  reflexivity.
Qed.

(** A non-empty line that is accepted has a colon. *)
Lemma parse_header_lines_cons line rest headers headers' :
  parse_header_lines (line :: rest) headers = Ok headers' ->
  (line = [] /\ parse_header_lines rest headers = Ok headers')
  \/ exists key value,
      line = key ++ [COLON] ++ value /\ ~ In COLON key /\
      parse_header_lines rest (dict_set headers (strip key) (strip value))
      = Ok headers'.
Proof.
  destruct line as [|c line]; [auto|]. intros H. right.
  simpl in H. change (lit ":") with [COLON] in H.
  unfold contains, split1 in H.
  destruct (partition N.eqb (c :: line) [COLON]) as [[key value]|] eqn:E;
    [|discriminate].
  apply (partition_one_Some N.eqb N.eqb_eq) in E as [E Hkey].
  exists key, value. auto.
Qed.

Lemma parse_header_lines_app l1 l2 headers :
  parse_header_lines (l1 ++ l2) headers
  = bind (parse_header_lines l1 headers) (fun h => parse_header_lines l2 h).
Proof.
  revert headers. induction l1 as [|line l1 IH]; intros headers; [reflexivity|].
  simpl. destruct line as [|c line]; [apply IH|].
  destruct (negb (contains N.eqb (c :: line) (lit ":"))); [reflexivity|].
  destruct (split1 N.eqb (c :: line) (lit ":")) as [|k [|v [|x l]]];
    try reflexivity. apply IH.
Qed.

(** What the loop over the header lines leaves in the headers. *)
Lemma parse_header_lines_sound lines :
  forall headers headers',
    parse_header_lines lines headers = Ok headers' ->
    Forall (fun line =>
              line = [] \/
              exists key value,
                line = key ++ [COLON] ++ value /\ ~ In COLON key /\
                dict_mem headers' (strip key) = true) lines
    /\ (forall name, dict_mem headers name = true -> dict_mem headers' name = true)
    /\ (forall name value,
          In (name, value) headers' ->
          In (name, value) headers \/
          exists key v,
            In (key ++ [COLON] ++ v) lines /\ ~ In COLON key /\
            name = strip key /\ value = strip v).
Proof.
  induction lines as [|line lines IH]; intros headers headers' H.
  - simpl in H. injection H as <-. repeat split; auto.
  - apply parse_header_lines_cons in H
      as [[-> H]|(key & value & -> & Hkey & H)];
      apply IH in H as (Hall & Hmono & Hsrc).
    + repeat split; auto.
      intros name value Hin. apply Hsrc in Hin as [Hin|(k & v & Hin & Hk)];
        [auto|]. right. exists k, v. split; [now right|assumption].
    + repeat split.
      * constructor; [|assumption]. right. exists key, value.
        repeat split; auto. apply Hmono. apply dict_mem_set. now left.
      * intros name Hname. apply Hmono. apply dict_mem_set. now right.
      * intros name v Hin.
        apply Hsrc in Hin as [Hin|(k & v' & Hin & Hk)].
        -- apply in_dict_set in Hin as [[-> ->]|Hin]; [|auto].
           right. exists key, value. repeat split; auto. now left.
        -- right. exists k, v'. split; [now right|assumption].
Qed.

Lemma parse_http_request_headers data request :
  parse_http_request data = Ok request ->
  parse_header_lines (tl (lines data)) [] = Ok (headers request).
Proof.
  unfold parse_http_request, parse_http_request_try.
  destruct (lines data) as [|first others]; [discriminate|].
  destruct (split N.eqb first (lit " ")) as [|m [|p [|v [|x l]]]];
    try discriminate.
  destruct (negb (startswith N.eqb v (lit "HTTP/"))); [discriminate|].
  simpl tl. destruct (parse_header_lines others []) as [h|e]; [|discriminate].
  simpl. intros H. injection H as <-. reflexivity.
Qed.

(** Lines that name other headers leave the entry of [name] alone. *)
Lemma parse_header_lines_keeps name lines :
  Forall (fun line =>
            forall k v, line = k ++ [COLON] ++ v -> ~ In COLON k ->
                        strip k <> name) lines ->
  forall headers headers',
    parse_header_lines lines headers = Ok headers' ->
    dict_get headers' name = dict_get headers name.
Proof.
  induction 1 as [|line lines Hline _ IH]; intros headers headers' H.
  - simpl in H. now injection H as <-.
  - apply parse_header_lines_cons in H
      as [[-> H]|(key & value & -> & Hkey & H)].
    + now apply IH.
    + apply IH in H. rewrite H. apply dict_get_set_other.
      now apply (Hline key value).
Qed.
End ParserFacts.

(** C4.  Whatever bytes it is given, [parse_http_request] has one of two
    outcomes.  Either it returns a request: then the first line of the
    header section is method, space, path, space, version, none of the
    three holding a space, the version starts with [HTTP/], every further
    line that is not empty is a name without colon, a colon and a value,
    the trimmed name is a header of the request, and every header of the
    request is the trimmed name and the trimmed value of such a line.  Or
    it raises [ValueError], the one error of the parser. *)
Theorem parse_http_request_outcomes (data : Py.bytes) :
  (exists request,
      http_parser.parse_http_request data = Py.Ok request /\
      hd [] (http_parser.lines data)
      = http_parser.method request ++ [Py.SPACE] ++ http_parser.path request
          ++ [Py.SPACE] ++ http_parser.version request /\
      ~ In Py.SPACE (http_parser.method request) /\
      ~ In Py.SPACE (http_parser.path request) /\
      ~ In Py.SPACE (http_parser.version request) /\
      (exists rest, http_parser.version request = Py.lit "HTTP/" ++ rest) /\
      Forall (fun line =>
                line = [] \/
                exists key value,
                  line = key ++ [Py.COLON] ++ value /\ ~ In Py.COLON key /\
                  Py.dict_mem (http_parser.headers request) (Py.strip key) = true)
             (tl (http_parser.lines data)) /\
      (forall name value,
          In (name, value) (http_parser.headers request) ->
          exists key v,
            In (key ++ [Py.COLON] ++ v) (tl (http_parser.lines data)) /\
            ~ In Py.COLON key /\
            name = Py.strip key /\ value = Py.strip v))
  \/ http_parser.parse_http_request data = Py.Raise Py.ValueError.
Proof.
  unfold http_parser.parse_http_request, http_parser.parse_http_request_try.
  destruct (http_parser.lines data) as [|first others];
    [right; reflexivity|].
  change (Py.lit " ") with [Py.SPACE].
  destruct (Py.split N.eqb first [Py.SPACE]) as [|m [|p [|v [|x l]]]] eqn:Hsplit;
    try (right; reflexivity).
  destruct (Py.startswith N.eqb v (Py.lit "HTTP/")) eqn:Hv;
    [|right; reflexivity].
  simpl negb. cbv iota.
  destruct (http_parser.parse_header_lines others []) as [headers|e] eqn:Hh;
    [|right; reflexivity].
  left. eexists. split; [reflexivity|]. simpl.
  pose proof (join_split N.eqb N.eqb_eq first [Py.SPACE] ltac:(discriminate))
    as Hjoin.
  pose proof (split_one_clean N.eqb N.eqb_eq first Py.SPACE) as Hclean.
  unfold Py.str, Py.char in *.
  rewrite Hsplit in Hjoin, Hclean. simpl in Hjoin.
  inversion Hclean as [|? ? Hm Hclean1]; subst.
  inversion Hclean1 as [|? ? Hp Hclean2]; subst.
  inversion Hclean2 as [|? ? Hver _]; subst.
  apply (startswith_true N.eqb N.eqb_eq) in Hv.
  apply parse_header_lines_sound in Hh as (Hall & _ & Hsrc).
  repeat split; auto.
  intros name value Hin. apply Hsrc in Hin as [[]|Hin]. exact Hin.
Qed.

(** C10.  In a request that the parser accepts, a header line whose
    trimmed name is not the trimmed name of any later line decides the
    value of that header: of several lines with one name, the last wins. *)
Theorem parse_http_request_last_header_wins
  (data : Py.bytes) (request : http_parser.HTTPRequest)
  (before after : list Py.str) (key value : Py.str) :
  http_parser.parse_http_request data = Py.Ok request ->
  tl (http_parser.lines data) = before ++ (key ++ [Py.COLON] ++ value) :: after ->
  ~ In Py.COLON key ->
  Forall (fun line =>
            forall k v, line = k ++ [Py.COLON] ++ v -> ~ In Py.COLON k ->
                        Py.strip k <> Py.strip key) after ->
  Py.dict_get (http_parser.headers request) (Py.strip key) = Some (Py.strip value).
Proof.
  intros Hparse Hlines Hkey Hafter.
  apply parse_http_request_headers in Hparse.
  rewrite Hlines, parse_header_lines_app in Hparse.
  destruct (http_parser.parse_header_lines before []) as [h1|e] eqn:H1;
    [|discriminate].
  cbn [Py.bind] in Hparse. rewrite parse_header_line in Hparse by assumption.
  apply (parse_header_lines_keeps (Py.strip key) after Hafter) in Hparse.
  rewrite Hparse. apply dict_get_set_same.
Qed.

Lemma parse_http_request_last_header_wins_witness :
  exists request,
    http_parser.parse_http_request demo.tagged_request = Py.Ok request /\
    Py.dict_get (http_parser.headers request) (Py.strip (Py.lit "X-Tag"))
    = Some (Py.strip (Py.lit " 2")).
Proof.
  eexists. split; [vm_compute; reflexivity|].
  apply (parse_http_request_last_header_wins
           demo.tagged_request _
           [Py.lit "X-Tag: 1"; Py.lit "Host: example"] []
           (Py.lit "X-Tag") (Py.lit " 2")).
  - vm_compute. reflexivity.
  - vm_compute. reflexivity.
  - vm_compute. intuition discriminate.
  - constructor.
Defined.

(* ================================================================== *)
(** * The request handler *)
(* ================================================================== *)

Section HandlerFacts.
Import Py pathlib.
Variable fs : FileSystem.
Variable document_root : Path.
Variable now : http_response.datetime.

Lemma allowed_method (m : str) :
  m = lit "GET" \/ m = lit "HEAD" ->
  negb (str_eqb m (lit "GET") || str_eqb m (lit "HEAD")) = false.
Proof. intros [-> | ->]; reflexivity. Qed.

(** Up to the [try] block: a request that is decoded, holds no [../]
    and passes the check of the trailing slash reaches the block with
    the candidate path. *)
Lemma handle_request_reaches_try request path :
  http_parser.method request = lit "GET" \/
  http_parser.method request = lit "HEAD" ->
  utils.url_decode (http_parser.path request) = Ok path ->
  contains N.eqb (server.remove_query_string path) (lit "../") = false ->
  let relative := server.remove_leading_slash (server.remove_query_string path) in
  let candidate := truediv document_root relative in
  (endswith N.eqb relative (lit "/") = true -> is_dir fs candidate = Ok true) ->
  server.handle_request fs document_root now request
  = try_except
      (server.handle_request_try fs document_root now
         (http_parser.method request) candidate)
      (fun _ => Ok (http_response.init now 500
                      (Some (lit "Internal Server Error")))).
Proof.
  intros Hmethod Hdecode Hdots relative candidate Hslash.
  unfold server.handle_request.
  rewrite (allowed_method _ Hmethod), Hdecode, Hdots.
  fold relative. fold candidate.
  destruct (endswith N.eqb relative (lit "/")).
  - rewrite Hslash by reflexivity. reflexivity.
  - reflexivity.
Qed.

Lemma serve_file_ok method file content :
  is_file fs file = Ok true ->
  read_bytes fs file = Ok content ->
  server.serve_file fs now method file
  = Ok (if str_eqb method (lit "GET")
        then http_response.set_body (server.file_response now file content)
               (Some content)
        else server.file_response now file content).
Proof.
  intros Hfile Hread. unfold server.serve_file.
  rewrite Hfile, Hread. cbn [bind negb].
  destruct (str_eqb method (lit "GET")); reflexivity.
Qed.

(** The [try] block on a path that resolves inside the root to a file,
    or to a directory with a regular [index.html]. *)
Lemma handle_request_try_file method candidate resolved file :
  resolve fs candidate = Ok resolved ->
  startswith N.eqb resolved document_root = true ->
  exists_ fs resolved = Ok true ->
  (is_dir fs resolved = Ok false /\ file = resolved) \/
  (is_dir fs resolved = Ok true /\
   exists_ fs (truediv resolved (lit "index.html")) = Ok true /\
   is_file fs (truediv resolved (lit "index.html")) = Ok true /\
   file = truediv resolved (lit "index.html")) ->
  server.handle_request_try fs document_root now method candidate
  = server.serve_file fs now method file.
Proof.
  intros Hresolve Hinside Hexists Hfile. unfold server.handle_request_try.
  rewrite Hresolve. cbn [bind]. rewrite Hinside, Hexists. cbn [bind negb].
  destruct Hfile as [[Hdir ->]|(Hdir & Hidx & Hreg & ->)]; rewrite Hdir;
    cbn [bind].
  - reflexivity.
  - rewrite Hidx. cbn [bind]. rewrite Hreg. reflexivity.
Qed.
End HandlerFacts.

(* ================================================================== *)
(** * Serialization *)
(* ================================================================== *)

Section EncodeFacts.
Import Py.

Lemma lit_cons (c : ascii) (s : string) : lit (String c s) = N_of_ascii c :: lit s.
Proof. reflexivity. Qed.

Lemma str_isascii_app (a b : str) :
  str_isascii (a ++ b) = str_isascii a && str_isascii b.
Proof. apply forallb_app. Qed.

Lemma encode_ascii (s : str) :
  str_isascii s = true -> encode s = Ok (ascii_bytes s).
Proof.
  induction s as [|c s IH]; simpl; [reflexivity|].
  intros H. apply andb_true_iff in H as [Hc Hs].
  unfold encode_char. unfold isascii in Hc. rewrite Hc. cbn [bind].
  rewrite (IH Hs). reflexivity.
Qed.

Lemma string_of_uint_ascii (d : Decimal.uint) :
  str_isascii (lit (NilEmpty.string_of_uint d)) = true.
Proof. induction d; simpl; try rewrite lit_cons; auto. Qed.

Lemma nilzero_uint_ascii (d : Decimal.uint) :
  str_isascii (lit (NilZero.string_of_uint d)) = true.
Proof.
  unfold NilZero.string_of_uint.
  destruct d; try reflexivity; apply string_of_uint_ascii.
Qed.

Lemma str_of_N_ascii (n : N) : str_isascii (str_of_N n) = true.
Proof. apply nilzero_uint_ascii. Qed.

Lemma str_of_Z_ascii (z : Z) : str_isascii (str_of_Z z) = true.
Proof.
  unfold str_of_Z, NilZero.string_of_int.
  destruct (Z.to_int z) as [d|d].
  - apply nilzero_uint_ascii.
  - rewrite lit_cons. simpl. apply nilzero_uint_ascii.
Qed.

Lemma pad2_ascii (n : N) : str_isascii (pad2 n) = true.
Proof.
  unfold pad2. destruct (n <? 10)%N; [|apply str_of_N_ascii].
  rewrite str_isascii_app, str_of_N_ascii. reflexivity.
Qed.

Lemma join_ascii (sep : str) (parts : list str) :
  str_isascii sep = true ->
  forallb str_isascii parts = true ->
  str_isascii (join sep parts) = true.
Proof.
  intros Hsep. induction parts as [|p parts IH]; [reflexivity|].
  simpl forallb. intros H. apply andb_true_iff in H as [Hp Hparts].
  destruct parts as [|q parts]; [exact Hp|].
  change (join sep (p :: q :: parts)) with (p ++ sep ++ join sep (q :: parts)).
  rewrite !str_isascii_app, Hp, Hsep, (IH Hparts). reflexivity.
Qed.
End EncodeFacts.

Section ResponseFacts.
Import Py http_response.

Lemma format_date_ascii (now : datetime) : str_isascii (_format_date now) = true.
Proof.
  unfold _format_date.
  assert (Hw : forall i, str_isascii (nth i weekday_names []) = true).
  { intros i. do 8 (destruct i as [|i]; [reflexivity|]). reflexivity. }
  assert (Hm : forall i, str_isascii (nth i month_names []) = true).
  { intros i. do 13 (destruct i as [|i]; [reflexivity|]). reflexivity. }
  rewrite !str_isascii_app, Hw, Hm, !pad2_ascii, str_of_N_ascii.
  reflexivity.
Qed.

Lemma status_get_ascii (code : Z) :
  str_isascii (status_get STATUS_MESSAGES code (lit "Unknown")) = true.
Proof.
  unfold STATUS_MESSAGES, status_get.
  repeat match goal with
         | |- context [if ?b then _ else _] => destruct b
         end; reflexivity.
Qed.

Lemma dict_set_ascii (d : dict) (k v : str) :
  forallb (fun nv => str_isascii (fst nv) && str_isascii (snd nv)) d = true ->
  str_isascii k = true -> str_isascii v = true ->
  forallb (fun nv => str_isascii (fst nv) && str_isascii (snd nv))
    (dict_set d k v) = true.
Proof.
  intros Hd Hk Hv. induction d as [|[k' v'] d IH]; simpl.
  - now rewrite Hk, Hv.
  - simpl in Hd. apply andb_true_iff in Hd as [Hkv Hd].
    apply andb_true_iff in Hkv as [Hk' Hv'].
    destruct (str_eqb k' k); simpl.
    + now rewrite Hk', Hv, Hd.
    + now rewrite Hk', Hv', (IH Hd).
Qed.

Lemma add_header_ascii (self : HTTPResponse) (name value : str) :
  ascii_response self = true ->
  str_isascii name = true -> str_isascii value = true ->
  ascii_response (add_header self name value) = true.
Proof.
  unfold ascii_response. intros H Hn Hv.
  apply andb_true_iff in H as [Hm Hh]. simpl.
  now rewrite Hm, dict_set_ascii.
Qed.

Lemma init_ascii (now : datetime) (code : Z) (message : option str) :
  match message with
  | Some m => str_isascii m = true
  | None => True
  end ->
  ascii_response (init now code message) = true.
Proof.
  intros Hmessage. unfold init.
  repeat apply add_header_ascii; try reflexivity; try apply format_date_ascii.
  unfold ascii_response. cbn [status_message headers forallb].
  rewrite andb_true_r.
  destruct message as [[|c m]|]; auto using status_get_ascii.
Qed.

Lemma header_lines_ascii (self : HTTPResponse) :
  ascii_response self = true ->
  forallb str_isascii (header_lines self) = true.
Proof.
  unfold ascii_response, header_lines, status_line.
  intros H. apply andb_true_iff in H as [Hm Hh]. cbn [forallb].
  apply andb_true_iff. split.
  - rewrite !str_isascii_app, str_of_Z_ascii, Hm. reflexivity.
  - induction (headers self) as [|[n v] d IH]; [reflexivity|].
    cbn [forallb map fst snd] in *. apply andb_true_iff in Hh as [Hnv Hd].
    apply andb_true_iff in Hnv as [Hn Hv].
    rewrite !str_isascii_app, Hn, Hv, (IH Hd). reflexivity.
Qed.

Lemma error_body_ascii (self : HTTPResponse) :
  ascii_response self = true -> str_isascii (error_body self) = true.
Proof.
  unfold ascii_response, error_body.
  intros H. apply andb_true_iff in H as [Hm _].
  rewrite !str_isascii_app, str_of_Z_ascii, Hm. reflexivity.
Qed.

(** The header block of a response, as [to_bytes] joins it. *)
Lemma encode_header_block (self : HTTPResponse) :
  ascii_response self = true ->
  encode (join CRLF (header_lines self) ++ CRLF ++ CRLF)
  = Ok (ascii_bytes (join CRLF (header_lines self) ++ CRLF ++ CRLF)).
Proof.
  intros H. apply encode_ascii.
  rewrite !str_isascii_app, join_ascii; auto using header_lines_ascii.
Qed.

Lemma to_bytes_inv (self after : HTTPResponse) (wire : bytes) :
  to_bytes self = Ok (wire, after) ->
  exists head,
    fill_content_length self = Ok after /\
    encode (join CRLF (header_lines self) ++ CRLF ++ CRLF) = Ok head /\
    wire = if has_body after then head ++ body_bytes after else head.
Proof.
  unfold to_bytes.
  destruct (fill_content_length self) as [self'|e]; [|discriminate].
  cbn [bind].
  destruct (encode (join CRLF (header_lines self) ++ CRLF ++ CRLF))
    as [head|e]; [|discriminate].
  cbn [bind]. intros H. injection H as <- <-. eauto.
Qed.

(** A response that already has a [Content-Length] header is left as it
    is. *)
Lemma fill_content_length_present (self : HTTPResponse) :
  dict_mem (headers self) (lit "Content-Length") = true ->
  fill_content_length self = Ok self.
Proof.
  intros H. unfold fill_content_length. rewrite H.
  rewrite andb_false_r. destruct (has_body self); reflexivity.
Qed.

(** Serializing an ASCII response succeeds: the header block is made of
    the lines [header_lines] had before [Content-Length] was looked
    at. *)
Lemma to_bytes_ascii (self : HTTPResponse) :
  ascii_response self = true ->
  exists after,
    to_bytes self
    = Ok (ascii_bytes (join CRLF (header_lines self) ++ CRLF ++ CRLF)
            ++ payload self, after).
Proof.
  intros H. unfold to_bytes, payload, fill_content_length.
  destruct (has_body self) eqn:Hbody.
  - destruct (negb (dict_mem (headers self) (lit "Content-Length")));
      cbn [bind]; rewrite (encode_header_block self H); cbn [bind].
    + eexists. unfold has_body, body_bytes in *. simpl.
      unfold body_bytes. rewrite Hbody. reflexivity.
    + eexists. rewrite Hbody. reflexivity.
  - destruct ((400 <=? status_code self)%Z
              && negb (dict_mem (headers self) (lit "Content-Length"))).
    + rewrite (encode_ascii _ (error_body_ascii self H)). cbn [bind].
      rewrite (encode_header_block self H). cbn [bind].
      eexists. reflexivity.
    + cbn [bind]. rewrite (encode_header_block self H). cbn [bind].
      rewrite Hbody, app_nil_r. eexists. reflexivity.
Qed.
End ResponseFacts.

Section HandlerResponses.
Import Py pathlib http_response.
Variable fs : FileSystem.
Variable document_root : Path.
Variable now : datetime.

Ltac plain_response :=
  left; eexists; eexists; split; [|reflexivity]; reflexivity.

(** The responses the handler builds: a bare response with one of its
    literal messages, or the response to a file, with or without the
    body. *)
Lemma serve_file_shape method file response :
  server.serve_file fs now method file = Ok response ->
  (exists code message,
      str_isascii message = true /\ response = init now code (Some message))
  \/ (exists content,
        response = server.file_response now file content \/
        response = set_body (server.file_response now file content) (Some content)).
Proof.
  unfold server.serve_file. intros H.
  destruct (is_file fs file) as [[|]|e]; cbn [bind negb] in H;
    [|injection H as <-; plain_response|discriminate].
  destruct (read_bytes fs file) as [content|e].
  - right. exists content.
    destruct (str_eqb method (lit "GET")); injection H as <-; auto.
  - destruct (is_PermissionError e); injection H as <-; plain_response.
Qed.

Lemma handle_request_shape request response :
  server.handle_request fs document_root now request = Ok response ->
  (exists code message,
      str_isascii message = true /\ response = init now code (Some message))
  \/ (exists file content,
        response = server.file_response now file content \/
        response = set_body (server.file_response now file content) (Some content)).
Proof.
  assert (Hserve : forall method file r,
             server.serve_file fs now method file = Ok r ->
             (exists code message,
                 str_isascii message = true /\ r = init now code (Some message))
             \/ (exists file content,
                   r = server.file_response now file content \/
                   r = set_body (server.file_response now file content)
                         (Some content))).
  { intros method file r Hr.
    apply serve_file_shape in Hr as [Hr|[content Hr]]; eauto. }
  unfold server.handle_request, server.handle_request_try. intros H.
  destruct (negb _); [injection H as <-; plain_response|].
  destruct (utils.url_decode _) as [path|e].
  2:{ destruct (is_ValueError e); [injection H as <-; plain_response|discriminate]. }
  destruct (contains N.eqb _ _); [injection H as <-; plain_response|].
  cbv zeta in H.
  match type of H with
  | context [bind ?m _] => destruct m as [[|]|e]
  end; cbn [bind negb] in H;
    [|injection H as <-; plain_response|discriminate].
  match type of H with
  | context [resolve fs ?p] => destruct (resolve fs p) as [resolved|e]
  end; cbn [bind try_except] in H; [|injection H as <-; plain_response].
  destruct (startswith N.eqb resolved document_root); cbn [negb] in H;
    [|injection H as <-; plain_response].
  destruct (exists_ fs resolved) as [[|]|e]; cbn [bind try_except negb] in H;
    try (injection H as <-; plain_response).
  destruct (is_dir fs resolved) as [[|]|e]; cbn [bind try_except] in H;
    try (injection H as <-; plain_response).
  - destruct (exists_ fs (truediv resolved (lit "index.html"))) as [[|]|e];
      cbn [bind try_except] in H; try (injection H as <-; plain_response).
    destruct (is_file fs (truediv resolved (lit "index.html"))) as [[|]|e];
      cbn [bind try_except] in H; try (injection H as <-; plain_response).
    destruct (server.serve_file fs now (http_parser.method request)
                (truediv resolved (lit "index.html"))) as [r|e] eqn:Hr;
      cbn [try_except] in H; injection H as <-;
      [eapply Hserve; eassumption|plain_response].
  - destruct (server.serve_file fs now (http_parser.method request) resolved)
      as [r|e] eqn:Hr;
      cbn [try_except] in H; injection H as <-;
      [eapply Hserve; eassumption|plain_response].
Qed.

Lemma get_content_type_ascii extension :
  str_isascii (utils.get_content_type extension) = true.
Proof.
  unfold utils.get_content_type, dict_get_default, utils.MIME_TYPES.
  cbn [dict_get].
  repeat match goal with
         | |- context [if ?b then _ else _] => destruct b
         end; reflexivity.
Qed.

Lemma file_response_ascii file content :
  ascii_response (server.file_response now file content) = true.
Proof.
  unfold server.file_response.
  apply add_header_ascii; [|reflexivity|apply str_of_N_ascii].
  apply add_header_ascii; [|reflexivity|apply get_content_type_ascii].
  now apply init_ascii.
Qed.

Lemma file_response_headers file content :
  headers (server.file_response now file content)
  = [(lit "Server", lit "OTUS-HTTPServer/0.1");
     (lit "Date", _format_date now);
     (lit "Connection", lit "keep-alive");
     (lit "Content-Type", utils.get_content_type (suffix file));
     (lit "Content-Length", str_of_N (N.of_nat (List.length content)))].
Proof. reflexivity. Qed.

(** Every response of the handler starts with the three default headers
    and is ASCII text. *)
Lemma handle_request_defaults request response :
  server.handle_request fs document_root now request = Ok response ->
  ascii_response response = true /\
  exists more,
    headers response
    = [(lit "Server", lit "OTUS-HTTPServer/0.1");
       (lit "Date", _format_date now);
       (lit "Connection", lit "keep-alive")] ++ more.
Proof.
  intros H.
  apply handle_request_shape in H
    as [(code & message & Hascii & ->)|(file & content & [-> | ->])].
  - split; [now apply init_ascii|]. exists []. reflexivity.
  - split; [apply file_response_ascii|]. eexists. reflexivity.
  - split; [apply file_response_ascii|]. eexists. reflexivity.
Qed.
End HandlerResponses.

Section ConnectionFacts.
Import Py pathlib.
Variable fs : FileSystem.
Variable document_root : Path.

Lemma parse_http_request_empty :
  http_parser.parse_http_request [] = Raise ValueError.
Proof. reflexivity. Qed.

(** A pass that reads a request, answers it and can write. *)
Lemma loop_body_responded p data request response wire after :
  server.read p = server.ReadData data ->
  http_parser.parse_http_request data = Ok request ->
  server.handle_request fs document_root (server.clock p) request = Ok response ->
  http_response.to_bytes response = Ok (wire, after) ->
  server.drain_ok p = true ->
  server.loop_body fs document_root p
  = ([wire],
     if str_eqb (server.connection_header request) (lit "close")
        || str_eqb (http_parser.version request) (lit "HTTP/1.0")
           && negb (str_eqb (server.connection_header request) (lit "keep-alive"))
     then server.Closing else server.Reading).
Proof.
  intros Hread Hparse Hhandle Hbytes Hdrain. unfold server.loop_body.
  rewrite Hread. destruct data as [|b data].
  { rewrite parse_http_request_empty in Hparse. discriminate. }
  rewrite Hparse, Hhandle, Hbytes, Hdrain. cbn [negb].
  destruct (str_eqb (server.connection_header request) (lit "close"));
    [reflexivity|].
  destruct (str_eqb (http_parser.version request) (lit "HTTP/1.0")
            && negb (str_eqb (server.connection_header request)
                       (lit "keep-alive")));
    reflexivity.
Qed.

(** Whatever a pass writes is the serialization of a response that
    carries the three default headers first. *)
Lemma loop_body_written p wire :
  In wire (fst (server.loop_body fs document_root p)) ->
  exists response after,
    http_response.to_bytes response = Ok (wire, after) /\
    exists more,
      http_response.headers response
      = [(lit "Server", lit "OTUS-HTTPServer/0.1");
         (lit "Date", http_response._format_date (server.clock p));
         (lit "Connection", lit "keep-alive")] ++ more.
Proof.
  unfold server.loop_body.
  destruct (server.read p) as [| |[|b data]]; try (intros []).
  destruct (http_parser.parse_http_request (b :: data)) as [request|e].
  - destruct (server.handle_request fs document_root (server.clock p) request)
      as [response|e] eqn:Hhandle; [|intros []].
    destruct (http_response.to_bytes response) as [[w after]|e] eqn:Hbytes;
      [|intros []].
    apply handle_request_defaults in Hhandle as [_ Hmore].
    intros Hin.
    assert (Hw : w = wire).
    { repeat match type of Hin with
             | context [if ?c then _ else _] => destruct c
             end; destruct Hin as [Hin|[]]; exact Hin. }
    subst w. eauto.
  - destruct (is_ValueError e); [|intros []].
    destruct (http_response.to_bytes _) as [[w after]|e'] eqn:Hbytes;
      [|intros []].
    intros [<-|[]]. eexists. eexists. split; [exact Hbytes|].
    exists []. reflexivity.
Qed.
End ConnectionFacts.

(** C8.  A request whose method is [POST] is answered with status 405,
    whatever its path, and before the path is looked at. *)
Theorem handle_request_post_405
  (fs : pathlib.FileSystem) (document_root : pathlib.Path)
  (now : http_response.datetime) (request : http_parser.HTTPRequest) :
  http_parser.method request = Py.lit "POST" ->
  exists response,
    server.handle_request fs document_root now request = Py.Ok response /\
    http_response.status_code response = 405%Z.
Proof.
  intros Hmethod. unfold server.handle_request. rewrite Hmethod.
  eexists. split; reflexivity.
Qed.

Lemma handle_request_post_405_witness :
  exists request response,
    http_parser.parse_http_request (demo.message "POST /%ff HTTP/1.1" [])
    = Py.Ok request /\
    http_parser.method request = Py.lit "POST" /\
    utils.url_decode (http_parser.path request) = Py.Raise Py.ValueError /\
    server.handle_request demo.fs demo.document_root demo.now request
    = Py.Ok response /\
    http_response.status_code response = 405%Z.
Proof.
  eexists.
  destruct (handle_request_post_405 demo.fs demo.document_root demo.now
              {| http_parser.method := Py.lit "POST";
                 http_parser.path := Py.lit "/%ff";
                 http_parser.version := Py.lit "HTTP/1.1";
                 http_parser.headers := [];
                 http_parser.body := None |} eq_refl)
    as (response & Hresponse & Hstatus).
  exists response.
  split; [vm_compute; reflexivity|].
  split; [reflexivity|].
  split; [vm_compute; reflexivity|].
  split; [exact Hresponse|exact Hstatus].
Defined.

(** C2, as the code has it.  A GET or HEAD request whose decoded path,
    once the query string (everything from the first [?]) is removed, holds
    [../] is answered with status 403, whatever the file system holds. *)
Theorem handle_request_dotdot_403
  (fs : pathlib.FileSystem) (document_root : pathlib.Path)
  (now : http_response.datetime) (request : http_parser.HTTPRequest)
  (path : Py.str) :
  http_parser.method request = Py.lit "GET" \/
  http_parser.method request = Py.lit "HEAD" ->
  utils.url_decode (http_parser.path request) = Py.Ok path ->
  Py.contains N.eqb (server.remove_query_string path) (Py.lit "../") = true ->
  exists response,
    server.handle_request fs document_root now request = Py.Ok response /\
    http_response.status_code response = 403%Z.
Proof.
  intros Hmethod Hdecode Hdots. unfold server.handle_request.
  rewrite (allowed_method _ Hmethod), Hdecode, Hdots.
  eexists. split; reflexivity.
Qed.

Lemma handle_request_dotdot_403_witness :
  exists response,
    Py.contains N.eqb
      (server.remove_query_string (Py.lit "/../etc/passwd")) (Py.lit "../") = true /\
    server.handle_request demo.fs demo.document_root demo.now
      (demo.request "GET" "/%2e%2e/etc/passwd") = Py.Ok response /\
    http_response.status_code response = 403%Z.
Proof.
  destruct (handle_request_dotdot_403 demo.fs demo.document_root demo.now
              (demo.request "GET" "/%2e%2e/etc/passwd")
              (Py.lit "/../etc/passwd"))
    as (response & Hresponse & Hstatus).
  - left. reflexivity.
  - vm_compute. reflexivity.
  - vm_compute. reflexivity.
  - exists response. split; [vm_compute; reflexivity|]. split; assumption.
Defined.

(** C2, as the claim has it, fails: [../] that stands behind a [?] is in
    the decoded path, and the request is served.  The [?] may be sent as
    it is or as [%3F]. *)
Lemma handle_request_dotdot_in_query_served :
  (exists path response,
      utils.url_decode (http_parser.path (demo.request "GET" "/index.html?next=../"))
      = Py.Ok path /\
      Py.contains N.eqb path (Py.lit "../") = true /\
      server.handle_request demo.fs demo.document_root demo.now
        (demo.request "GET" "/index.html?next=../") = Py.Ok response /\
      http_response.status_code response = 200%Z /\
      http_response.status_code response <> 403%Z) /\
  (exists path response,
      utils.url_decode (http_parser.path (demo.request "GET" "/index.html%3Fnext=../"))
      = Py.Ok path /\
      path = Py.lit "/index.html?next=../" /\
      Py.contains N.eqb path (Py.lit "../") = true /\
      server.handle_request demo.fs demo.document_root demo.now
        (demo.request "GET" "/index.html%3Fnext=../") = Py.Ok response /\
      http_response.status_code response = 200%Z /\
      http_response.status_code response <> 403%Z).
Proof.
  split; eexists; eexists.
  - split; [vm_compute; reflexivity|].
    split; [vm_compute; reflexivity|].
    split; [vm_compute; reflexivity|].
    split; [reflexivity|discriminate].
  - split; [vm_compute; reflexivity|].
    split; [reflexivity|].
    split; [vm_compute; reflexivity|].
    split; [vm_compute; reflexivity|].
    split; [reflexivity|discriminate].
Qed.

(** C3, as the code has it.  A GET or HEAD request whose path is decoded,
    whose candidate path passes the check of the trailing slash (the path
    does not end in [/], or the candidate is a directory), and whose
    candidate resolves to a path that does not start with the document
    root, is answered with status 403. *)
Theorem handle_request_escape_403
  (fs : pathlib.FileSystem) (document_root : pathlib.Path)
  (now : http_response.datetime) (request : http_parser.HTTPRequest)
  (path : Py.str) (resolved : pathlib.Path) :
  http_parser.method request = Py.lit "GET" \/
  http_parser.method request = Py.lit "HEAD" ->
  utils.url_decode (http_parser.path request) = Py.Ok path ->
  let relative := server.remove_leading_slash (server.remove_query_string path) in
  let candidate := pathlib.truediv document_root relative in
  (Py.endswith N.eqb relative (Py.lit "/") = true ->
   pathlib.is_dir fs candidate = Py.Ok true) ->
  pathlib.resolve fs candidate = Py.Ok resolved ->
  Py.startswith N.eqb resolved document_root = false ->
  exists response,
    server.handle_request fs document_root now request = Py.Ok response /\
    http_response.status_code response = 403%Z.
Proof.
  intros Hmethod Hdecode relative candidate Hslash Hresolve Houtside.
  destruct (Py.contains N.eqb (server.remove_query_string path) (Py.lit "../"))
    eqn:Hdots.
  - unfold server.handle_request.
    rewrite (allowed_method _ Hmethod), Hdecode, Hdots.
    eexists. split; reflexivity.
  - rewrite (handle_request_reaches_try fs document_root now request path
               Hmethod Hdecode Hdots Hslash).
    fold relative. fold candidate. unfold server.handle_request_try.
    rewrite Hresolve. cbn [Py.bind]. rewrite Houtside.
    eexists. split; reflexivity.
Qed.

Lemma handle_request_escape_403_witness :
  exists response,
    pathlib.resolve demo.fs (Py.lit "/srv/www/link/passwd")
    = Py.Ok (Py.lit "/etc/passwd") /\
    server.handle_request demo.fs demo.document_root demo.now
      (demo.request "GET" "/link/passwd") = Py.Ok response /\
    http_response.status_code response = 403%Z.
Proof.
  destruct (handle_request_escape_403 demo.fs demo.document_root demo.now
              (demo.request "GET" "/link/passwd")
              (Py.lit "/link/passwd") (Py.lit "/etc/passwd"))
    as (response & Hresponse & Hstatus).
  - left. reflexivity.
  - vm_compute. reflexivity.
  - vm_compute. discriminate.
  - vm_compute. reflexivity.
  - vm_compute. reflexivity.
  - exists response. split; [vm_compute; reflexivity|]. split; assumption.
Defined.

(** C3, as the claim has it, fails: the path ends in [/], its candidate
    resolves through the link [link] to [/etc/missing], outside the root,
    and the answer is 404, given before the candidate is resolved. *)
Lemma handle_request_escape_with_slash_404 :
  exists path resolved response,
    utils.url_decode (http_parser.path (demo.request "GET" "/link/missing/"))
    = Py.Ok path /\
    pathlib.resolve demo.fs
      (pathlib.truediv demo.document_root
         (server.remove_leading_slash (server.remove_query_string path)))
    = Py.Ok resolved /\
    resolved = Py.lit "/etc/missing" /\
    Py.startswith N.eqb resolved demo.document_root = false /\
    server.handle_request demo.fs demo.document_root demo.now
      (demo.request "GET" "/link/missing/") = Py.Ok response /\
    http_response.status_code response = 404%Z /\
    http_response.status_code response <> 403%Z.
Proof.
  eexists. eexists. eexists.
  split; [vm_compute; reflexivity|].
  split; [vm_compute; reflexivity|].
  split; [reflexivity|].
  split; [vm_compute; reflexivity|].
  split; [vm_compute; reflexivity|].
  split; [reflexivity|discriminate].
Qed.




(** C7, as the code has it.  Take a path that is decoded and, once the
    query string is removed, holds no [../], whose candidate passes the
    check of the trailing slash and resolves inside the document root to
    a regular file that can be read (the path itself, or the [index.html]
    of the directory it names).  The responses to a HEAD and to a GET
    request for that path, built at the same time, have the same status 200
    and the same headers, with [Content-Type] looked up from the suffix of
    the file, [Content-Length] the length of its content and the same
    [Date].  The HEAD response has no body and the GET response has the
    content as body; on the wire both are the same header block, followed
    by the content for GET and by nothing for HEAD. *)
Theorem handle_request_head_matches_get
  (fs : pathlib.FileSystem) (document_root : pathlib.Path)
  (now : http_response.datetime) (get head : http_parser.HTTPRequest)
  (path : Py.str) (resolved file : pathlib.Path) (content : Py.bytes) :
  http_parser.method get = Py.lit "GET" ->
  http_parser.method head = Py.lit "HEAD" ->
  http_parser.path head = http_parser.path get ->
  utils.url_decode (http_parser.path get) = Py.Ok path ->
  Py.contains N.eqb (server.remove_query_string path) (Py.lit "../") = false ->
  let relative := server.remove_leading_slash (server.remove_query_string path) in
  let candidate := pathlib.truediv document_root relative in
  (Py.endswith N.eqb relative (Py.lit "/") = true ->
   pathlib.is_dir fs candidate = Py.Ok true) ->
  pathlib.resolve fs candidate = Py.Ok resolved ->
  Py.startswith N.eqb resolved document_root = true ->
  pathlib.exists_ fs resolved = Py.Ok true ->
  (pathlib.is_dir fs resolved = Py.Ok false /\ file = resolved) \/
  (pathlib.is_dir fs resolved = Py.Ok true /\
   pathlib.exists_ fs (pathlib.truediv resolved (Py.lit "index.html")) = Py.Ok true /\
   pathlib.is_file fs (pathlib.truediv resolved (Py.lit "index.html")) = Py.Ok true /\
   file = pathlib.truediv resolved (Py.lit "index.html")) ->
  pathlib.is_file fs file = Py.Ok true ->
  pathlib.read_bytes fs file = Py.Ok content ->
  exists response_get response_head block,
    server.handle_request fs document_root now get = Py.Ok response_get /\
    server.handle_request fs document_root now head = Py.Ok response_head /\
    http_response.status_code response_get = 200%Z /\
    http_response.status_code response_head = 200%Z /\
    http_response.headers response_head = http_response.headers response_get /\
    Py.dict_get (http_response.headers response_get) (Py.lit "Content-Type")
    = Some (utils.get_content_type (pathlib.suffix file)) /\
    Py.dict_get (http_response.headers response_get) (Py.lit "Content-Length")
    = Some (Py.str_of_N (N.of_nat (List.length content))) /\
    Py.dict_get (http_response.headers response_get) (Py.lit "Date")
    = Some (http_response._format_date now) /\
    http_response.body response_head = None /\
    http_response.body response_get = Some content /\
    http_response.to_bytes response_head = Py.Ok (block, response_head) /\
    http_response.to_bytes response_get = Py.Ok (block ++ content, response_get).
Proof.
  intros Hget Hhead Hpath Hdecode Hdots relative candidate Hslash Hresolve
    Hinside Hexists Hfile Hregular Hread.
  assert (Hdecode' : utils.url_decode (http_parser.path head) = Py.Ok path)
    by now rewrite Hpath.
  rewrite (handle_request_reaches_try fs document_root now get path
             (or_introl Hget) Hdecode Hdots Hslash).
  rewrite (handle_request_reaches_try fs document_root now head path
             (or_intror Hhead) Hdecode' Hdots Hslash).
  fold relative. fold candidate.
  rewrite !(handle_request_try_file fs document_root now _ candidate resolved file
              Hresolve Hinside Hexists Hfile).
  rewrite !(serve_file_ok fs now _ file content Hregular Hread).
  rewrite Hget, Hhead.
  change (Py.str_eqb (Py.lit "GET") (Py.lit "GET")) with true.
  change (Py.str_eqb (Py.lit "HEAD") (Py.lit "GET")) with false.
  cbn [Py.try_except].
  pose proof (file_response_ascii now file content) as Hascii.
  pose proof (encode_header_block _ Hascii) as Hblock.
  eexists. eexists. eexists.
  repeat (split; [reflexivity|]).
  split.
  - unfold http_response.to_bytes.
    rewrite fill_content_length_present by reflexivity.
    cbn [Py.bind]. rewrite Hblock. reflexivity.
  - unfold http_response.to_bytes.
    rewrite fill_content_length_present by reflexivity.
    cbn [Py.bind].
    change (http_response.header_lines
              (http_response.set_body
                 (server.file_response now file content) (Some content)))
      with (http_response.header_lines (server.file_response now file content)).
    rewrite Hblock. cbn [Py.bind].
    destruct content as [|b content]; [|reflexivity].
    cbn. rewrite app_nil_r. reflexivity.
Qed.

Lemma handle_request_head_matches_get_witness :
  exists response_get response_head block,
    server.handle_request demo.fs demo.document_root demo.now
      (demo.request "GET" "/") = Py.Ok response_get /\
    server.handle_request demo.fs demo.document_root demo.now
      (demo.request "HEAD" "/") = Py.Ok response_head /\
    http_response.status_code response_get = 200%Z /\
    http_response.status_code response_head = 200%Z /\
    http_response.headers response_head = http_response.headers response_get /\
    Py.dict_get (http_response.headers response_get) (Py.lit "Content-Type")
    = Some (utils.get_content_type (pathlib.suffix (Py.lit "/srv/www/index.html"))) /\
    Py.dict_get (http_response.headers response_get) (Py.lit "Content-Length")
    = Some (Py.str_of_N (N.of_nat (List.length (Py.blit "<h1>It works</h1>")))) /\
    Py.dict_get (http_response.headers response_get) (Py.lit "Date")
    = Some (http_response._format_date demo.now) /\
    http_response.body response_head = None /\
    http_response.body response_get = Some (Py.blit "<h1>It works</h1>") /\
    http_response.to_bytes response_head = Py.Ok (block, response_head) /\
    http_response.to_bytes response_get
    = Py.Ok (block ++ Py.blit "<h1>It works</h1>", response_get).
Proof.
  apply (handle_request_head_matches_get demo.fs demo.document_root demo.now
           (demo.request "GET" "/") (demo.request "HEAD" "/")
           (Py.lit "/") (Py.lit "/srv/www") (Py.lit "/srv/www/index.html")
           (Py.blit "<h1>It works</h1>")).
  - reflexivity.
  - reflexivity.
  - reflexivity.
  - vm_compute. reflexivity.
  - vm_compute. reflexivity.
  - vm_compute. discriminate.
  - vm_compute. reflexivity.
  - vm_compute. reflexivity.
  - vm_compute. reflexivity.
  - right. repeat split; vm_compute; reflexivity.
  - vm_compute. reflexivity.
  - vm_compute. reflexivity.
Defined.

(** C7, as the claim has it, fails.  The path [/docs/../index.html]
    resolves inside the document root to [index.html], a regular file that
    can be read, but it holds [../]: GET and HEAD are answered with 403,
    the GET response has no body and no [Content-Length].  The path
    [/index.html/] has the same file as candidate, but it ends in [/] and
    the candidate is no directory: GET is answered with 404 and no body. *)
Lemma handle_request_file_not_served :
  (exists path resolved content response_get response_head,
      utils.url_decode (http_parser.path (demo.request "GET" "/docs/../index.html"))
      = Py.Ok path /\
      pathlib.resolve demo.fs
        (pathlib.truediv demo.document_root
           (server.remove_leading_slash (server.remove_query_string path)))
      = Py.Ok resolved /\
      resolved = Py.lit "/srv/www/index.html" /\
      Py.startswith N.eqb resolved demo.document_root = true /\
      pathlib.exists_ demo.fs resolved = Py.Ok true /\
      pathlib.is_file demo.fs resolved = Py.Ok true /\
      pathlib.read_bytes demo.fs resolved = Py.Ok content /\
      content = Py.blit "<h1>It works</h1>" /\
      server.handle_request demo.fs demo.document_root demo.now
        (demo.request "GET" "/docs/../index.html") = Py.Ok response_get /\
      server.handle_request demo.fs demo.document_root demo.now
        (demo.request "HEAD" "/docs/../index.html") = Py.Ok response_head /\
      http_response.status_code response_get = 403%Z /\
      http_response.status_code response_head = 403%Z /\
      http_response.body response_get = None /\
      http_response.body response_get <> Some content /\
      Py.dict_get (http_response.headers response_get) (Py.lit "Content-Length")
      = None /\
      Py.dict_get (http_response.headers response_get) (Py.lit "Content-Type")
      = None) /\
  (exists path resolved content response_get,
      utils.url_decode (http_parser.path (demo.request "GET" "/index.html/"))
      = Py.Ok path /\
      pathlib.resolve demo.fs
        (pathlib.truediv demo.document_root
           (server.remove_leading_slash (server.remove_query_string path)))
      = Py.Ok resolved /\
      resolved = Py.lit "/srv/www/index.html" /\
      Py.startswith N.eqb resolved demo.document_root = true /\
      pathlib.is_file demo.fs resolved = Py.Ok true /\
      pathlib.read_bytes demo.fs resolved = Py.Ok content /\
      server.handle_request demo.fs demo.document_root demo.now
        (demo.request "GET" "/index.html/") = Py.Ok response_get /\
      http_response.status_code response_get = 404%Z /\
      http_response.body response_get = None /\
      http_response.body response_get <> Some content).
Proof.
  split.
  - eexists. eexists. eexists. eexists. eexists.
    split; [vm_compute; reflexivity|].
    split; [vm_compute; reflexivity|].
    split; [reflexivity|].
    split; [vm_compute; reflexivity|].
    split; [vm_compute; reflexivity|].
    split; [vm_compute; reflexivity|].
    split; [vm_compute; reflexivity|].
    split; [reflexivity|].
    split; [vm_compute; reflexivity|].
    split; [vm_compute; reflexivity|].
    split; [reflexivity|].
    split; [reflexivity|].
    split; [reflexivity|].
    split; [discriminate|].
    split; reflexivity.
  - eexists. eexists. eexists. eexists.
    split; [vm_compute; reflexivity|].
    split; [vm_compute; reflexivity|].
    split; [reflexivity|].
    split; [vm_compute; reflexivity|].
    split; [vm_compute; reflexivity|].
    split; [vm_compute; reflexivity|].
    split; [vm_compute; reflexivity|].
    split; [reflexivity|].
    split; [reflexivity|discriminate].
Qed.

(** C6.  A pass of the connection loop that reads a request the parser
    accepts, gets a response from the handler and writes it, leaves the
    loop exactly when the lowered [Connection] header of the request is
    [close], or the version is [HTTP/1.0] and the lowered [Connection]
    header is not [keep-alive].  In that case nothing more is read;
    otherwise the loop goes on with the next read on the same
    connection. *)
Theorem handle_client_keep_alive_decision
  (fs : pathlib.FileSystem) (document_root : pathlib.Path)
  (p : server.pass) (rest : list server.pass)
  (data : Py.bytes) (request : http_parser.HTTPRequest)
  (response after : http_response.HTTPResponse) (wire : Py.bytes) :
  server.read p = server.ReadData data ->
  http_parser.parse_http_request data = Py.Ok request ->
  server.handle_request fs document_root (server.clock p) request = Py.Ok response ->
  http_response.to_bytes response = Py.Ok (wire, after) ->
  server.drain_ok p = true ->
  let connection :=
    Py.lower (Py.dict_get_default (http_parser.headers request)
                (Py.lit "Connection") []) in
  let closes :=
    connection = Py.lit "close" \/
    (http_parser.version request = Py.lit "HTTP/1.0" /\
     connection <> Py.lit "keep-alive") in
  (snd (server.loop_body fs document_root p) = server.Closing <-> closes) /\
  (closes ->
   server.handle_client fs document_root (p :: rest) = ([wire], server.Closing)) /\
  (~ closes ->
   server.handle_client fs document_root (p :: rest)
   = (wire :: fst (server.handle_client fs document_root rest),
      snd (server.handle_client fs document_root rest))).
Proof.
  intros Hread Hparse Hhandle Hbytes Hdrain connection closes.
  pose proof (loop_body_responded fs document_root p data request response
                wire after Hread Hparse Hhandle Hbytes Hdrain) as Hbody.
  unfold server.connection_header in Hbody. fold connection in Hbody.
  assert (Hcloses :
            Py.str_eqb connection (Py.lit "close")
            || Py.str_eqb (http_parser.version request) (Py.lit "HTTP/1.0")
               && negb (Py.str_eqb connection (Py.lit "keep-alive")) = true
            <-> closes).
  { unfold closes.
    rewrite orb_true_iff, andb_true_iff, negb_true_iff, !str_eqb_eq, str_eqb_neq.
    reflexivity. }
  destruct (Py.str_eqb connection (Py.lit "close")
            || Py.str_eqb (http_parser.version request) (Py.lit "HTTP/1.0")
               && negb (Py.str_eqb connection (Py.lit "keep-alive"))).
  - assert (Hyes : closes) by now apply Hcloses.
    repeat split.
    + intros _. exact Hyes.
    + now rewrite Hbody.
    + intros _. simpl. now rewrite Hbody.
    + intros Hno. contradiction.
  - assert (Hno : ~ closes).
    { intros Hyes. apply Hcloses in Hyes. discriminate. }
    repeat split.
    + rewrite Hbody. discriminate.
    + intros Hyes. contradiction.
    + intros Hyes. contradiction.
    + intros _. simpl. rewrite Hbody.
      destruct (server.handle_client fs document_root rest). reflexivity.
Qed.

Lemma handle_client_keep_alive_decision_witness :
  exists wire later,
    server.handle_client demo.fs demo.document_root demo.keep_then_close
    = (wire :: later, server.Closing) /\
    List.length later = 1%nat.
Proof.
  edestruct (handle_client_keep_alive_decision demo.fs demo.document_root
               (demo.pass_of
                  (demo.message "GET /index.html HTTP/1.0"
                     ["Connection: Keep-Alive"%string]))
               [demo.pass_of
                  (demo.message "GET /index.html HTTP/1.1"
                     ["Connection: close"%string])])
    as (_ & _ & Hgoes_on).
  - reflexivity.
  - vm_compute. reflexivity.
  - vm_compute. reflexivity.
  - vm_compute. reflexivity.
  - reflexivity.
  - eexists. eexists. split.
    + unfold demo.keep_then_close. rewrite Hgoes_on.
      * vm_compute. reflexivity.
      * vm_compute. intros [H|[_ H]]; [discriminate H|now apply H].
    + reflexivity.
Defined.

(** C9.  A response is built with the headers [Server], [Date] and
    [Connection: keep-alive], in this order.  Whatever a connection writes
    is a header block followed by a payload, and the lines of the block
    are the status line, the three default headers, [Connection:
    keep-alive] among them, and the headers added later.  This holds for
    the 400 response to a request the parser rejects, which is written and
    after which the loop is left. *)
Theorem responses_advertise_keep_alive :
  (forall now code message,
      http_response.headers (http_response.init now code message)
      = [(Py.lit "Server", Py.lit "OTUS-HTTPServer/0.1");
         (Py.lit "Date", http_response._format_date now);
         (Py.lit "Connection", Py.lit "keep-alive")]) /\
  (forall fs document_root passes wire,
      In wire (fst (server.handle_client fs document_root passes)) ->
      exists p response more head payload,
        In p passes /\
        http_response.header_lines response
        = http_response.status_line response
            :: Py.lit "Server: OTUS-HTTPServer/0.1"
            :: (Py.lit "Date: " ++ http_response._format_date (server.clock p))
            :: Py.lit "Connection: keep-alive"
            :: more /\
        Py.encode (Py.join Py.CRLF (http_response.header_lines response)
                     ++ Py.CRLF ++ Py.CRLF) = Py.Ok head /\
        wire = head ++ payload) /\
  (forall fs document_root p rest data,
      server.read p = server.ReadData data ->
      data <> [] ->
      http_parser.parse_http_request data = Py.Raise Py.ValueError ->
      exists wire after,
        http_response.to_bytes
          (http_response.init (server.clock p) 400 (Some (Py.lit "Bad Request")))
        = Py.Ok (wire, after) /\
        server.handle_client fs document_root (p :: rest)
        = ([wire], server.Closing)).
Proof.
  split; [reflexivity|]. split.
  - intros fs document_root passes wire.
    induction passes as [|p passes IH]; simpl; [intros []|].
    destruct (server.loop_body fs document_root p) as [written state] eqn:Hbody.
    assert (Hhere :
              In wire written ->
              exists p0 response more head payload,
                In p0 (p :: passes) /\
                http_response.header_lines response
                = http_response.status_line response
                    :: Py.lit "Server: OTUS-HTTPServer/0.1"
                    :: (Py.lit "Date: "
                          ++ http_response._format_date (server.clock p0))
                    :: Py.lit "Connection: keep-alive"
                    :: more /\
                Py.encode (Py.join Py.CRLF (http_response.header_lines response)
                             ++ Py.CRLF ++ Py.CRLF) = Py.Ok head /\
                wire = head ++ payload).
    { intros Hin.
      pose proof (loop_body_written fs document_root p wire) as Hwritten.
      rewrite Hbody in Hwritten.
      destruct (Hwritten Hin) as (response & after & Hbytes & more & Hheaders).
      apply to_bytes_inv in Hbytes as (head & _ & Hhead & Hwire).
      exists p, response. eexists. exists head.
      exists (if http_response.has_body after
              then http_response.body_bytes after else []).
      split; [now left|]. split.
      - unfold http_response.header_lines. rewrite Hheaders. reflexivity.
      - split; [exact Hhead|]. rewrite Hwire.
        destruct (http_response.has_body after); [reflexivity|].
        now rewrite app_nil_r. }
    destruct state.
    + destruct (server.handle_client fs document_root passes) as [later state'].
      simpl in *. intros Hin. apply in_app_or in Hin as [Hin|Hin].
      * now apply Hhere.
      * destruct (IH Hin) as (p0 & response & more & head & payload & Hp0 & H).
        exists p0, response, more, head, payload. split; [now right|exact H].
    + simpl. exact Hhere.
  - intros fs document_root p rest data Hread Hdata Hparse.
    destruct (to_bytes_ascii
                (http_response.init (server.clock p) 400
                   (Some (Py.lit "Bad Request"))))
      as [after Hbytes].
    { now apply init_ascii. }
    eexists. exists after. split; [exact Hbytes|].
    simpl. unfold server.loop_body. rewrite Hread.
    destruct data as [|b data]; [contradiction|].
    rewrite Hparse. cbn [Py.is_ValueError]. rewrite Hbytes. reflexivity.
Qed.

Lemma responses_advertise_keep_alive_witness :
  exists wire after,
    http_response.to_bytes
      (http_response.init demo.now 400 (Some (Py.lit "Bad Request")))
    = Py.Ok (wire, after) /\
    server.handle_client demo.fs demo.document_root
      [demo.pass_of (Py.blit "GARBAGE" ++ demo.bCRLF ++ demo.bCRLF)]
    = ([wire], server.Closing).
Proof.
  destruct responses_advertise_keep_alive as (_ & _ & Hmalformed).
  apply (Hmalformed demo.fs demo.document_root
           (demo.pass_of (Py.blit "GARBAGE" ++ demo.bCRLF ++ demo.bCRLF)) []
           (Py.blit "GARBAGE" ++ demo.bCRLF ++ demo.bCRLF)).
  - reflexivity.
  - discriminate.
  - vm_compute. reflexivity.
Defined.

(** C1, on the code.  [to_bytes] collects the header lines before it adds
    [Content-Length], so the header block it returns has none.  For a 404
    response without body the bytes are the status line, the three default
    headers, the blank line and the synthesized page: no [Content-Length],
    no [Content-Type].  For a 200 response with the body [hello] they are
    the status line, the three default headers, the blank line and the
    body.  Both headers are in the response object afterwards, and a second
    call of [to_bytes] writes them. *)
Theorem to_bytes_leaves_content_length_out :
  (exists after,
      http_response.to_bytes (http_response.init demo.now 404 None)
      = Py.Ok (demo.message "HTTP/1.1 404 Not Found"
                 ["Server: OTUS-HTTPServer/0.1";
                  "Date: Wed, 09 Jun 2021 10:18:14 GMT";
                  "Connection: keep-alive"]%string
                 ++ Py.blit "<html><body><h1>404 Not Found</h1></body></html>",
               after) /\
      Py.dict_get (http_response.headers after) (Py.lit "Content-Length")
      = Some (Py.lit "48") /\
      Py.dict_get (http_response.headers after) (Py.lit "Content-Type")
      = Some (Py.lit "text/html") /\
      http_response.to_bytes after
      = Py.Ok (demo.message "HTTP/1.1 404 Not Found"
                 ["Server: OTUS-HTTPServer/0.1";
                  "Date: Wed, 09 Jun 2021 10:18:14 GMT";
                  "Connection: keep-alive";
                  "Content-Length: 48";
                  "Content-Type: text/html"]%string
                 ++ Py.blit "<html><body><h1>404 Not Found</h1></body></html>",
               after)) /\
  (exists after,
      http_response.to_bytes
        (http_response.set_body (http_response.init demo.now 200 None)
           (Some (Py.blit "hello")))
      = Py.Ok (demo.message "HTTP/1.1 200 OK"
                 ["Server: OTUS-HTTPServer/0.1";
                  "Date: Wed, 09 Jun 2021 10:18:14 GMT";
                  "Connection: keep-alive"]%string
                 ++ Py.blit "hello",
               after) /\
      Py.dict_get (http_response.headers after) (Py.lit "Content-Length")
      = Some (Py.lit "5")).
Proof.
  split; eexists; repeat split; vm_compute; reflexivity.
Qed.

(* ================================================================== *)
(** * Further properties of the parser *)
(* ================================================================== *)

Section SplitFacts.
Context {A : Type} (eqb : A -> A -> bool).
Hypothesis eqb_eq : forall x y, eqb x y = true <-> x = y.

(** Fuel beyond the length of the text changes nothing. *)
Lemma split_fuel_enough (sep : list A) :
  sep <> [] ->
  forall f1 f2 s,
    (List.length s <= f1)%nat -> (List.length s <= f2)%nat ->
    Py.split_fuel eqb f1 s sep = Py.split_fuel eqb f2 s sep.
Proof.
  intros Hsep. induction f1 as [|f1 IH]; intros f2 s H1 H2.
  - destruct s; [|simpl in H1; lia].
    destruct sep as [|y sep]; [congruence|]. destruct f2; reflexivity.
  - simpl. destruct (Py.partition eqb s sep) as [[b a]|] eqn:E.
    + pose proof (partition_shorter eqb eqb_eq s sep b a Hsep E) as Hlt.
      destruct f2 as [|f2]; [lia|]. simpl. rewrite E. f_equal.
      apply IH; lia.
    + destruct f2; simpl; rewrite E; reflexivity.
Qed.

Lemma split_one_none (s : list A) (c : A) :
  ~ In c s -> Py.split eqb s [c] = [s].
Proof.
  intros H. apply (partition_one_None eqb eqb_eq) in H.
  unfold Py.split. destruct (List.length s); simpl; now rewrite H.
Qed.

Lemma split_one_app (b a : list A) (c : A) :
  ~ In c b -> Py.split eqb (b ++ c :: a) [c] = b :: Py.split eqb a [c].
Proof.
  intros H. unfold Py.split.
  rewrite length_app. simpl List.length.
  replace (List.length b + S (List.length a))%nat
    with (S (List.length b + List.length a)) by lia.
  simpl. rewrite (partition_one_app eqb eqb_eq) by assumption.
  f_equal. apply split_fuel_enough; [discriminate|lia|lia].
Qed.

(** The part before the leftmost occurrence holds no occurrence. *)
Lemma partition_leftmost (s sep b a : list A) :
  sep <> [] ->
  Py.partition eqb s sep = Some (b, a) -> Py.partition eqb b sep = None.
Proof.
  intros Hsep. revert b. induction s as [|x s IH]; intros b; simpl.
  - destruct (Py.remove_prefix eqb [] sep) as [r|] eqn:E; [|discriminate].
    apply (remove_prefix_Some eqb eqb_eq) in E.
    destruct sep; [congruence|discriminate].
  - destruct (Py.remove_prefix eqb (x :: s) sep) as [r|] eqn:E.
    + intros H. injection H as <- <-. simpl.
      destruct (Py.remove_prefix eqb [] sep) as [r'|] eqn:E'; [|reflexivity].
      apply (remove_prefix_Some eqb eqb_eq) in E'.
      destruct sep; [congruence|discriminate].
    + destruct (Py.partition eqb s sep) as [[b' a']|] eqn:Ep; [|discriminate].
      intros H. injection H as <- <-. simpl.
      destruct (Py.remove_prefix eqb (x :: b') sep) as [r|] eqn:E'.
      * apply (remove_prefix_Some eqb eqb_eq) in E'.
        apply (partition_Some eqb eqb_eq) in Ep.
        assert (Hs : x :: s = sep ++ (r ++ sep ++ a')).
        { rewrite app_assoc, <- E', Ep. reflexivity. }
        apply (remove_prefix_Some eqb eqb_eq) in Hs. congruence.
      * now rewrite (IH b' eq_refl).
Qed.
End SplitFacts.

Lemma byte_eqb_eq (x y : byte) : Byte.eqb x y = true <-> x = y.
Proof. split; [apply Byte.byte_dec_bl|apply Byte.byte_dec_lb]. Qed.

Lemma parse_header_lines_accepts (others : list Py.str) :
  Forall (fun line => line = [] \/ In Py.COLON line) others ->
  forall headers,
  exists headers', http_parser.parse_header_lines others headers = Py.Ok headers'.
Proof.
  induction 1 as [|line others Hline _ IH]; intros headers; simpl; [eauto|].
  destruct line as [|c line]; [apply IH|].
  destruct Hline as [Hline|Hline]; [discriminate|].
  change (Py.lit ":") with [Py.COLON].
  unfold Py.contains, Py.split1.
  destruct (Py.partition N.eqb (c :: line) [Py.COLON]) as [[k v]|] eqn:E.
  - cbn [negb]. apply IH.
  - apply (partition_one_None N.eqb N.eqb_eq) in E. contradiction.
Qed.

(** X1.  The parser accepts every input whose header section starts with
    a line made of method, space, path, space and version, none of them
    holding a space and the version starting with [HTTP/], and whose other
    lines are empty or hold a colon; the request it returns has that
    method, path and version. *)
Theorem parse_http_request_accepts
  (data : Py.bytes) (others : list Py.str) (m p v : Py.str) :
  http_parser.lines data = (m ++ [Py.SPACE] ++ p ++ [Py.SPACE] ++ v) :: others ->
  ~ In Py.SPACE m -> ~ In Py.SPACE p -> ~ In Py.SPACE v ->
  Py.startswith N.eqb v (Py.lit "HTTP/") = true ->
  Forall (fun line => line = [] \/ In Py.COLON line) others ->
  exists request,
    http_parser.parse_http_request data = Py.Ok request /\
    http_parser.method request = m /\
    http_parser.path request = p /\
    http_parser.version request = v.
Proof.
  intros Hlines Hm Hp Hv Hversion Hothers.
  unfold http_parser.parse_http_request, http_parser.parse_http_request_try.
  rewrite Hlines. change (Py.lit " ") with [Py.SPACE].
  cbn [app].
  rewrite (split_one_app N.eqb N.eqb_eq) by assumption.
  rewrite (split_one_app N.eqb N.eqb_eq) by assumption.
  rewrite (split_one_none N.eqb N.eqb_eq) by assumption.
  rewrite Hversion. cbn [negb].
  destruct (parse_header_lines_accepts others Hothers []) as [headers Hheaders].
  rewrite Hheaders. cbn [Py.bind Py.try_except].
  eexists. repeat split.
Qed.

Lemma parse_http_request_accepts_witness :
  exists request,
    http_parser.parse_http_request demo.tagged_request = Py.Ok request /\
    http_parser.method request = Py.lit "GET" /\
    http_parser.path request = Py.lit "/" /\
    http_parser.version request = Py.lit "HTTP/1.1".
Proof.
  apply (parse_http_request_accepts demo.tagged_request
           [Py.lit "X-Tag: 1"; Py.lit "Host: example"; Py.lit "X-Tag: 2"]
           (Py.lit "GET") (Py.lit "/") (Py.lit "HTTP/1.1")).
  - vm_compute. reflexivity.
  - vm_compute. intuition discriminate.
  - vm_compute. intuition discriminate.
  - vm_compute. intuition discriminate.
  - vm_compute. reflexivity.
  - repeat constructor; right; vm_compute; intuition.
Defined.

(** X2.  When the parser accepts an input, the input is its header
    section, which holds no blank line, followed by nothing, or by the
    first blank line and the body: the body of the request is every byte
    after the first blank line, and there is no body when no byte
    follows. *)
Theorem parse_http_request_body
  (data : Py.bytes) (request : http_parser.HTTPRequest) :
  http_parser.parse_http_request data = Py.Ok request ->
  Py.contains Byte.eqb (http_parser.header_data data) http_parser.blank_line = false /\
  match http_parser.body request with
  | Some body =>
      body <> [] /\
      data = http_parser.header_data data ++ http_parser.blank_line ++ body
  | None =>
      data = http_parser.header_data data \/
      data = http_parser.header_data data ++ http_parser.blank_line
  end.
Proof.
  unfold http_parser.parse_http_request, http_parser.parse_http_request_try,
    http_parser.header_data.
  destruct (http_parser.lines data) as [|first others]; [discriminate|].
  destruct (Py.split N.eqb first (Py.lit " ")) as [|m [|p [|v [|x l]]]];
    try discriminate.
  destruct (negb (Py.startswith N.eqb v (Py.lit "HTTP/"))); [discriminate|].
  destruct (http_parser.parse_header_lines others []) as [h|e]; [|discriminate].
  cbn [Py.bind Py.try_except]. intros H. injection H as <-.
  cbn [http_parser.body]. unfold Py.split1, Py.contains.
  destruct (Py.partition Byte.eqb data http_parser.blank_line) as [[b a]|] eqn:E.
  - cbn [hd nth List.length Nat.ltb Nat.leb].
    rewrite (partition_leftmost Byte.eqb byte_eqb_eq data
               http_parser.blank_line b a ltac:(discriminate) E).
    split; [reflexivity|].
    apply (partition_Some Byte.eqb byte_eqb_eq) in E.
    destruct a as [|a0 a].
    + right. rewrite E. reflexivity.
    + split; [discriminate|exact E].
  - cbn [hd nth List.length Nat.ltb Nat.leb]. rewrite E.
    split; [reflexivity|]. left. reflexivity.
Qed.

Lemma parse_http_request_body_witness :
  exists request,
    http_parser.parse_http_request fixtures.with_body = Py.Ok request /\
    http_parser.body request = Some (Py.blit "payload") /\
    Py.contains Byte.eqb (http_parser.header_data fixtures.with_body)
      http_parser.blank_line = false.
Proof.
  eexists. split; [vm_compute; reflexivity|].
  split; [reflexivity|].
  refine (proj1 (parse_http_request_body fixtures.with_body _ _)).
  vm_compute. reflexivity.
Defined.

(* ================================================================== *)
(** * Further properties of the response builder *)
(* ================================================================== *)

Section ResponseExtras.
Import Py http_response.

Lemma dict_set_absent (d : dict) (k v : str) :
  dict_mem d k = false -> dict_set d k v = d ++ [(k, v)].
Proof.
  unfold dict_mem. induction d as [|[k' v'] d IH]; simpl; [reflexivity|].
  destruct (str_eqb k' k); simpl; [discriminate|]. intros H. now rewrite IH.
Qed.

Lemma dict_set_keys_present (d : dict) (k v : str) :
  dict_mem d k = true -> map fst (dict_set d k v) = map fst d.
Proof.
  unfold dict_mem. induction d as [|[k' v'] d IH]; simpl; [discriminate|].
  destruct (str_eqb k' k); simpl; [reflexivity|]. intros H. now rewrite IH.
Qed.

Lemma dict_get_in (d : dict) (k v : str) :
  dict_get d k = Some v -> In (k, v) d.
Proof.
  induction d as [|[k' v'] d IH]; simpl; [discriminate|].
  destruct (str_eqb k' k) eqn:E.
  - apply str_eqb_eq in E. subst k'. intros H. injection H as ->. now left.
  - intros H. right. now apply IH.
Qed.

(** What [fill_content_length] does to a response that has a body
    afterwards. *)
Lemma fill_content_length_body self after :
  fill_content_length self = Ok after ->
  has_body after = true ->
  (dict_mem (headers self) (lit "Content-Length") = false ->
   dict_get (headers after) (lit "Content-Length")
   = Some (str_of_N (N.of_nat (List.length (body_bytes after))))) /\
  (dict_mem (headers self) (lit "Content-Length") = true -> after = self) /\
  (has_body self = true -> body after = body self).
Proof.
  intros Hfill Hbody. unfold fill_content_length in Hfill.
  destruct (has_body self) eqn:Hself.
  - destruct (dict_mem (headers self) (lit "Content-Length")) eqn:Hmem;
      cbn [negb] in Hfill; injection Hfill as <-.
    + repeat split; try reflexivity. discriminate.
    + repeat split; try reflexivity; try discriminate.
      intros _. cbn [headers add_header]. apply dict_get_set_same.
  - destruct (dict_mem (headers self) (lit "Content-Length")) eqn:Hmem.
    + rewrite andb_false_r in Hfill. injection Hfill as <-. congruence.
    + destruct (400 <=? status_code self)%Z; cbn [andb negb] in Hfill.
      * destruct (encode (error_body self)) as [b|e]; [|discriminate].
        cbn [bind] in Hfill. injection Hfill as <-.
        repeat split; try discriminate. intros _.
        cbn [headers add_header set_body body_bytes body].
        rewrite dict_get_set_other by discriminate.
        apply dict_get_set_same.
      * injection Hfill as <-. congruence.
Qed.

(** What [fill_content_length] returns it leaves alone. *)
Lemma fill_content_length_settles self after :
  fill_content_length self = Ok after -> fill_content_length after = Ok after.
Proof.
  intros H.
  assert (Hcases : after = self \/
                   dict_mem (headers after) (lit "Content-Length") = true).
  { unfold fill_content_length in H.
    destruct (has_body self).
    - destruct (negb (dict_mem (headers self) (lit "Content-Length")));
        injection H as <-; [right|now left].
      apply dict_mem_set. now left.
    - destruct ((400 <=? status_code self)%Z
                && negb (dict_mem (headers self) (lit "Content-Length")));
        [|injection H as <-; now left].
      destruct (encode (error_body self)) as [b|e]; [|discriminate].
      cbn [bind] in H. injection H as <-. right.
      cbn [headers add_header]. apply dict_mem_set. right.
      apply dict_mem_set. now left. }
  destruct Hcases as [->|Hmem]; [exact H|].
  now apply fill_content_length_present.
Qed.

Lemma lower_char_idempotent (c : char) : lower_char (lower_char c) = lower_char c.
Proof.
  unfold lower_char.
  destruct ((65 <=? c) && (c <=? 90))%N eqn:Hupper.
  - apply andb_true_iff in Hupper as [H1 H2].
    apply N.leb_le in H1, H2.
    assert (H3 : (65 <=? c + 32)%N && (c + 32 <=? 90)%N = false).
    { apply andb_false_iff. right. apply N.leb_gt. lia. }
    rewrite H3.
    assert (H4 : (c + 32 =? 8490)%N = false) by (apply N.eqb_neq; lia).
    now rewrite H4.
  - destruct (c =? 8490)%N eqn:Hk.
    + reflexivity.
    + now rewrite Hupper, Hk.
Qed.

Lemma lower_idempotent (s : str) : lower (lower s) = lower s.
Proof.
  unfold lower. rewrite map_map. apply map_ext. apply lower_char_idempotent.
Qed.

Lemma in_N_range (a len n : N) :
  (a <= n < a + len)%N ->
  In n (map N.of_nat (seq (N.to_nat a) (N.to_nat len))).
Proof.
  intros H. rewrite <- (N2Nat.id n). apply in_map. apply in_seq. lia.
Qed.

(** A property checked on every number of a range holds on the range. *)
Lemma checked_on_range (f : N -> bool) (a len : N) :
  forallb f (map N.of_nat (seq (N.to_nat a) (N.to_nat len))) = true ->
  forall n, (a <= n < a + len)%N -> f n = true.
Proof.
  intros Hall n Hn. rewrite forallb_forall in Hall.
  apply Hall. now apply in_N_range.
Qed.

Lemma pad2_width (n : N) : (n < 100)%N -> List.length (pad2 n) = 2%nat.
Proof.
  intros H. apply Nat.eqb_eq.
  apply (checked_on_range (fun n => Nat.eqb (List.length (pad2 n)) 2) 0 100);
    [vm_compute; reflexivity|lia].
Qed.

Lemma year_width (n : N) :
  (1000 <= n < 10000)%N -> List.length (str_of_N n) = 4%nat.
Proof.
  intros H. apply Nat.eqb_eq.
  apply (checked_on_range (fun n => Nat.eqb (List.length (str_of_N n)) 4)
           1000 9000); [vm_compute; reflexivity|lia].
Qed.

Lemma weekday_width (n : N) :
  (n <= 6)%N -> List.length (nth (N.to_nat n) weekday_names []) = 3%nat.
Proof.
  intros H. apply Nat.eqb_eq.
  apply (checked_on_range
           (fun n => Nat.eqb (List.length (nth (N.to_nat n) weekday_names [])) 3)
           0 7); [vm_compute; reflexivity|lia].
Qed.

Lemma month_width (n : N) :
  (1 <= n <= 12)%N ->
  List.length (nth (N.to_nat (n - 1)) month_names []) = 3%nat.
Proof.
  intros H. apply Nat.eqb_eq.
  apply (checked_on_range
           (fun n => Nat.eqb (List.length (nth (N.to_nat (n - 1)) month_names [])) 3)
           1 12); [vm_compute; reflexivity|lia].
Qed.
End ResponseExtras.

(** X3.  When [to_bytes] leaves a response with a body, the response has
    a [Content-Length] header: the one it had, in which case nothing was
    changed, or else one that gives the length of the body.  A body that
    was set is kept as it is. *)
Theorem to_bytes_sets_content_length
  (self after : http_response.HTTPResponse) (wire : Py.bytes) :
  http_response.to_bytes self = Py.Ok (wire, after) ->
  http_response.has_body after = true ->
  (Py.dict_mem (http_response.headers self) (Py.lit "Content-Length") = false ->
   Py.dict_get (http_response.headers after) (Py.lit "Content-Length")
   = Some (Py.str_of_N (N.of_nat (List.length (http_response.body_bytes after))))) /\
  (Py.dict_mem (http_response.headers self) (Py.lit "Content-Length") = true ->
   after = self) /\
  (http_response.has_body self = true ->
   http_response.body after = http_response.body self).
Proof.
  intros Hbytes Hbody.
  apply to_bytes_inv in Hbytes as (head & Hfill & _ & _).
  now apply fill_content_length_body.
Qed.

Lemma to_bytes_sets_content_length_witness :
  exists wire after,
    http_response.to_bytes fixtures.hello = Py.Ok (wire, after) /\
    Py.dict_get (http_response.headers after) (Py.lit "Content-Length")
    = Some (Py.str_of_N (N.of_nat (List.length (http_response.body_bytes after)))) /\
    http_response.body after = Some (Py.blit "hello").
Proof.
  eexists. eexists. split; [vm_compute; reflexivity|].
  match goal with
  | |- context [http_response.headers ?a] =>
      destruct (to_bytes_sets_content_length fixtures.hello a
                  (demo.message "HTTP/1.1 200 OK"
                     ["Server: OTUS-HTTPServer/0.1";
                      "Date: Wed, 09 Jun 2021 10:18:14 GMT";
                      "Connection: keep-alive"]%string ++ Py.blit "hello"))
        as (Hlength & _ & Hkept)
  end.
  - vm_compute. reflexivity.
  - reflexivity.
  - split; [apply Hlength; reflexivity|apply Hkept; reflexivity].
Defined.

(** X4.  Serializing a response a second time leaves it as the first call
    left it, and sends the same payload after the header block.  When the
    first call added [Content-Length] for a body, the header block of the
    second call has the line [Content-Length: n] with the length of that
    payload. *)
Theorem to_bytes_twice
  (self after after' : http_response.HTTPResponse) (wire wire' : Py.bytes) :
  http_response.to_bytes self = Py.Ok (wire, after) ->
  http_response.to_bytes after = Py.Ok (wire', after') ->
  after' = after /\
  exists head head' payload,
    Py.encode (Py.join Py.CRLF (http_response.header_lines self)
                 ++ Py.CRLF ++ Py.CRLF) = Py.Ok head /\
    Py.encode (Py.join Py.CRLF (http_response.header_lines after)
                 ++ Py.CRLF ++ Py.CRLF) = Py.Ok head' /\
    wire = head ++ payload /\
    wire' = head' ++ payload /\
    (http_response.has_body after = true ->
     Py.dict_mem (http_response.headers self) (Py.lit "Content-Length") = false ->
     payload = http_response.body_bytes after /\
     In (Py.lit "Content-Length" ++ Py.lit ": "
           ++ Py.str_of_N (N.of_nat (List.length payload)))
        (http_response.header_lines after)).
Proof.
  intros Hfirst Hsecond.
  apply to_bytes_inv in Hfirst as (head & Hfill & Hhead & Hwire).
  apply to_bytes_inv in Hsecond as (head' & Hfill' & Hhead' & Hwire').
  rewrite (fill_content_length_settles self after Hfill) in Hfill'.
  injection Hfill' as <-. split; [reflexivity|].
  exists head, head'.
  exists (if http_response.has_body after
          then http_response.body_bytes after else []).
  split; [exact Hhead|]. split; [exact Hhead'|]. split; [|split].
  - rewrite Hwire. destruct (http_response.has_body after);
      [reflexivity|now rewrite app_nil_r].
  - rewrite Hwire'. destruct (http_response.has_body after);
      [reflexivity|now rewrite app_nil_r].
  - intros Hbody Habsent. rewrite Hbody. split; [reflexivity|].
    destruct (fill_content_length_body self after Hfill Hbody) as (Hget & _ & _).
    apply Hget in Habsent. apply dict_get_in in Habsent.
    unfold http_response.header_lines. right.
    apply (in_map (fun nv => fst nv ++ Py.lit ": " ++ snd nv)) in Habsent.
    exact Habsent.
Qed.

Lemma to_bytes_twice_witness :
  exists wire after wire',
    http_response.to_bytes fixtures.hello = Py.Ok (wire, after) /\
    http_response.to_bytes after = Py.Ok (wire', after) /\
    In (Py.lit "Content-Length: 5") (http_response.header_lines after).
Proof.
  eexists. eexists. eexists.
  split; [vm_compute; reflexivity|]. split; [vm_compute; reflexivity|].
  match goal with
  | |- In _ (http_response.header_lines ?a) =>
      destruct (to_bytes_twice fixtures.hello a a
                  (demo.message "HTTP/1.1 200 OK"
                     ["Server: OTUS-HTTPServer/0.1";
                      "Date: Wed, 09 Jun 2021 10:18:14 GMT";
                      "Connection: keep-alive"]%string ++ Py.blit "hello")
                  (demo.message "HTTP/1.1 200 OK"
                     ["Server: OTUS-HTTPServer/0.1";
                      "Date: Wed, 09 Jun 2021 10:18:14 GMT";
                      "Connection: keep-alive";
                      "Content-Length: 5"]%string ++ Py.blit "hello"))
        as (_ & head & head' & payload & _ & _ & _ & _ & Hline)
  end.
  - vm_compute. reflexivity.
  - vm_compute. reflexivity.
  - destruct Hline as [Hpayload Hin]; [reflexivity|reflexivity|].
    rewrite Hpayload in Hin. exact Hin.
Defined.

(** X5.  Serializing a response whose status message, header names and
    header values are ASCII text does not raise, and returns the status
    line and the header lines joined by CR LF, a blank line, and then the
    body when there is one, the synthesized page for an error without
    [Content-Length], and nothing otherwise. *)
Theorem to_bytes_of_ascii_response (self : http_response.HTTPResponse) :
  Py.str_isascii (http_response.status_message self) = true ->
  Forall (fun nv => Py.str_isascii (fst nv) = true /\ Py.str_isascii (snd nv) = true)
    (http_response.headers self) ->
  exists after,
    http_response.to_bytes self
    = Py.Ok (Py.ascii_bytes
               (Py.join Py.CRLF (http_response.header_lines self)
                  ++ Py.CRLF ++ Py.CRLF)
             ++ http_response.payload self, after).
Proof.
  intros Hmessage Hheaders. apply to_bytes_ascii.
  unfold http_response.ascii_response. rewrite Hmessage. simpl.
  apply forallb_forall. rewrite Forall_forall in Hheaders.
  intros nv Hnv. destruct (Hheaders nv Hnv) as [-> ->]. reflexivity.
Qed.

Lemma to_bytes_of_ascii_response_witness :
  exists after,
    http_response.to_bytes fixtures.hello
    = Py.Ok (Py.ascii_bytes
               (Py.join Py.CRLF (http_response.header_lines fixtures.hello)
                  ++ Py.CRLF ++ Py.CRLF)
             ++ http_response.payload fixtures.hello, after).
Proof.
  apply (to_bytes_of_ascii_response fixtures.hello).
  - reflexivity.
  - repeat constructor.
Defined.

(** X6.  An empty status message is treated like none: the message is
    looked up from the status code.  A message that is not empty is kept
    whatever the code, and a code outside the table gets the message
    [Unknown]. *)
Theorem init_status_message
  (now : http_response.datetime) (code : Z) (message : Py.str) :
  http_response.init now code (Some []) = http_response.init now code None /\
  (message <> [] ->
   http_response.status_message (http_response.init now code (Some message))
   = message) /\
  (~ In code [200; 400; 403; 404; 405; 500]%Z ->
   http_response.status_message (http_response.init now code None)
   = Py.lit "Unknown").
Proof.
  split; [reflexivity|]. split.
  - intros Hmessage. destruct message; [contradiction|reflexivity].
  - intros Hcode. cbn [http_response.init http_response.add_header
                         http_response.status_message].
    unfold http_response.STATUS_MESSAGES, http_response.status_get.
    repeat match goal with
           | |- context [(?c =? code)%Z] =>
               destruct (Z.eqb_spec c code) as [Heq|_];
               [exfalso; apply Hcode; rewrite <- Heq; simpl; tauto|]
           end.
    reflexivity.
Qed.

Lemma init_status_message_witness :
  http_response.status_message
    (http_response.init demo.now 302 (Some (Py.lit "Found"))) = Py.lit "Found" /\
  http_response.status_message (http_response.init demo.now 302 None)
  = Py.lit "Unknown".
Proof.
  destruct (init_status_message demo.now 302 (Py.lit "Found"))
    as (_ & Hkept & Hunknown).
  split.
  - apply Hkept. discriminate.
  - apply Hunknown. simpl. intuition discriminate.
Defined.

(** X7.  After [add_header] the header has the value given, every other
    header has the value it had, a header that was there keeps its place
    among the names, and a new header comes last. *)
Theorem add_header_lookup
  (self : http_response.HTTPResponse) (name value : Py.str) :
  Py.dict_get (http_response.headers (http_response.add_header self name value)) name
  = Some value /\
  (forall other, other <> name ->
     Py.dict_get (http_response.headers (http_response.add_header self name value)) other
     = Py.dict_get (http_response.headers self) other) /\
  (Py.dict_mem (http_response.headers self) name = true ->
   map fst (http_response.headers (http_response.add_header self name value))
   = map fst (http_response.headers self)) /\
  (Py.dict_mem (http_response.headers self) name = false ->
   http_response.headers (http_response.add_header self name value)
   = http_response.headers self ++ [(name, value)]).
Proof.
  cbn [http_response.headers http_response.add_header].
  split; [apply dict_get_set_same|]. split.
  - intros other Hother. apply dict_get_set_other. congruence.
  - split; [apply dict_set_keys_present|apply dict_set_absent].
Qed.

Lemma add_header_lookup_witness :
  map fst (http_response.headers
             (http_response.add_header fixtures.hello
                (Py.lit "Connection") (Py.lit "close")))
  = [Py.lit "Server"; Py.lit "Date"; Py.lit "Connection"] /\
  Py.dict_get (http_response.headers
                 (http_response.add_header fixtures.hello
                    (Py.lit "Connection") (Py.lit "close")))
    (Py.lit "Server")
  = Some (Py.lit "OTUS-HTTPServer/0.1").
Proof.
  destruct (add_header_lookup fixtures.hello (Py.lit "Connection") (Py.lit "close"))
    as (_ & Hother & Hkeys & _).
  split.
  - rewrite Hkeys; reflexivity.
  - rewrite Hother; [reflexivity|discriminate].
Defined.

(** X16.  For a date with a weekday, a month, a day, an hour, a minute
    and a second in their ranges and a year of four digits, the [Date]
    text has 29 characters and ends in [ GMT]. *)
Theorem format_date_width (now : http_response.datetime) :
  (http_response.weekday now <= 6)%N ->
  (1 <= http_response.month now <= 12)%N ->
  (1000 <= http_response.year now <= 9999)%N ->
  (1 <= http_response.day now <= 31)%N ->
  (http_response.hour now <= 23)%N ->
  (http_response.minute now <= 59)%N ->
  (http_response.second now <= 59)%N ->
  List.length (http_response._format_date now) = 29%nat /\
  exists front, http_response._format_date now = front ++ Py.lit " GMT".
Proof.
  intros Hweekday Hmonth Hyear Hday Hhour Hminute Hsecond.
  unfold http_response._format_date. split.
  - rewrite !length_app, weekday_width, month_width, year_width, !pad2_width
      by lia.
    reflexivity.
  - eexists. rewrite !app_assoc. reflexivity.
Qed.

Lemma format_date_width_witness :
  List.length (http_response._format_date demo.now) = 29%nat /\
  exists front, http_response._format_date demo.now = front ++ Py.lit " GMT".
Proof.
  apply (format_date_width demo.now); vm_compute; intuition discriminate.
Defined.

(** X19.  The content type of an extension is that of the extension in
    lower case, and it is always a type of the table or
    [application/octet-stream]. *)
Theorem get_content_type_ignores_case (extension : Py.str) :
  utils.get_content_type (Py.lower extension) = utils.get_content_type extension /\
  In (utils.get_content_type extension)
     (Py.lit "application/octet-stream" :: map snd utils.MIME_TYPES).
Proof.
  split.
  - unfold utils.get_content_type. now rewrite lower_idempotent.
  - unfold utils.get_content_type, Py.dict_get_default, utils.MIME_TYPES.
    cbn [Py.dict_get map snd].
    repeat match goal with
           | |- context [if ?b then _ else _] => destruct b
           end; simpl; tauto.
Qed.

(* ================================================================== *)
(** * Further properties of the handler *)
(* ================================================================== *)

Ltac is_plain m :=
  lazymatch m with
  | Py.Ok _ => fail
  | Py.Raise _ => fail
  | context [match _ with _ => _ end] => fail
  | context [Py.bind _ _] => fail
  | context [Py.try_except _ _] => fail
  | _ => idtac
  end.

Ltac handler_step H :=
  cbn [Py.bind Py.try_except negb] in H;
  first
    [ match type of H with
      | context [Py.bind ?m _] => is_plain m; destruct m eqn:?
      end
    | match type of H with
      | context [Py.try_except ?m _] => is_plain m; destruct m eqn:?
      end
    | match type of H with
      | context [match ?x with _ => _ end] => is_plain x; destruct x eqn:?
      end ].

Ltac handler_cases H :=
  unfold server.handle_request, server.handle_request_try, server.serve_file in H;
  repeat handler_step H;
  cbn [Py.bind Py.try_except negb] in H.

Lemma url_decode_raises (path : Py.str) (e : Py.exn) :
  utils.url_decode path = Py.Raise e -> e = Py.ValueError.
Proof.
  unfold utils.url_decode. destruct (utils.unquote path); simpl; congruence.
Qed.

Section HandlerInversion.
Import Py pathlib.
Variable fs : FileSystem.
Variable document_root : Path.
Variable now : http_response.datetime.

Lemma serve_file_200 method file response :
  server.serve_file fs now method file = Ok response ->
  http_response.status_code response = 200%Z ->
  exists content,
    is_file fs file = Ok true /\
    read_bytes fs file = Ok content /\
    response = if str_eqb method (lit "GET")
               then http_response.set_body
                      (server.file_response now file content) (Some content)
               else server.file_response now file content.
Proof.
  unfold server.serve_file. intros H Hstatus.
  destruct (is_file fs file) as [[|]|e]; cbn [bind negb] in H;
    [|injection H as <-; discriminate|discriminate].
  destruct (read_bytes fs file) as [content|e].
  - exists content. repeat split.
    destruct (str_eqb method (lit "GET")); now injection H as <-.
  - destruct (is_PermissionError e); injection H as <-; discriminate.
Qed.

Lemma handle_request_try_200 method candidate response :
  try_except (server.handle_request_try fs document_root now method candidate)
    (fun _ => Ok (http_response.init now 500 (Some (lit "Internal Server Error"))))
  = Ok response ->
  http_response.status_code response = 200%Z ->
  exists resolved file,
    resolve fs candidate = Ok resolved /\
    startswith N.eqb resolved document_root = true /\
    exists_ fs resolved = Ok true /\
    (file = resolved \/ file = truediv resolved (lit "index.html")) /\
    server.serve_file fs now method file = Ok response.
Proof.
  unfold server.handle_request_try. intros H Hstatus.
  destruct (resolve fs candidate) as [resolved|e]; cbn [bind try_except] in H;
    [|injection H as <-; discriminate].
  exists resolved.
  destruct (startswith N.eqb resolved document_root); cbn [negb] in H;
    [|injection H as <-; discriminate].
  destruct (exists_ fs resolved) as [[|]|e]; cbn [bind try_except negb] in H;
    try (injection H as <-; discriminate).
  destruct (is_dir fs resolved) as [[|]|e]; cbn [bind try_except] in H;
    try (injection H as <-; discriminate).
  - destruct (exists_ fs (truediv resolved (lit "index.html"))) as [[|]|e];
      cbn [bind try_except] in H; try (injection H as <-; discriminate).
    destruct (is_file fs (truediv resolved (lit "index.html"))) as [[|]|e];
      cbn [bind try_except] in H; try (injection H as <-; discriminate).
    exists (truediv resolved (lit "index.html")).
    destruct (server.serve_file fs now method (truediv resolved (lit "index.html")))
      as [r|e]; cbn [try_except] in H; injection H as <-;
      [auto 10|discriminate].
  - exists resolved.
    destruct (server.serve_file fs now method resolved) as [r|e];
      cbn [try_except] in H; injection H as <-; [auto 10|discriminate].
Qed.

(** The handler raises only what the check of the trailing slash
    raises. *)
Lemma handle_request_raise_inv request e :
  server.handle_request fs document_root now request = Raise e ->
  exists path,
    utils.url_decode (http_parser.path request) = Ok path /\
    endswith N.eqb
      (server.remove_leading_slash (server.remove_query_string path))
      (lit "/") = true /\
    is_dir fs
      (truediv document_root
         (server.remove_leading_slash (server.remove_query_string path)))
    = Raise e.
Proof.
  unfold server.handle_request. intros H.
  destruct (negb _); [discriminate|].
  destruct (utils.url_decode (http_parser.path request)) as [path|e0] eqn:Hdecode.
  2:{ apply url_decode_raises in Hdecode. subst e0. discriminate. }
  exists path.
  destruct (contains N.eqb (server.remove_query_string path) (lit "../"));
    [discriminate|].
  cbv zeta in H.
  destruct (endswith N.eqb _ _).
  - destruct (is_dir fs _) as [[|]|e']; cbn [bind negb] in H.
    + destruct (server.handle_request_try _ _ _ _ _); discriminate.
    + discriminate.
    + injection H as <-. auto.
  - cbn [bind negb] in H.
    destruct (server.handle_request_try _ _ _ _ _); discriminate.
Qed.

Lemma serve_file_head_mirrors file :
  fixtures.head_mirrors (server.serve_file fs now (lit "GET") file)
    (server.serve_file fs now (lit "HEAD") file).
Proof.
  unfold server.serve_file.
  destruct (is_file fs file) as [[|]|e];
    cbn [bind negb fixtures.head_mirrors]; auto.
  destruct (read_bytes fs file) as [content|e].
  - cbn. auto.
  - destruct (is_PermissionError e); cbn; auto.
Qed.

Lemma handle_request_try_head_mirrors candidate :
  fixtures.head_mirrors
    (try_except (server.handle_request_try fs document_root now (lit "GET") candidate)
       (fun _ => Ok (http_response.init now 500 (Some (lit "Internal Server Error")))))
    (try_except (server.handle_request_try fs document_root now (lit "HEAD") candidate)
       (fun _ => Ok (http_response.init now 500 (Some (lit "Internal Server Error"))))).
Proof.
  assert (Hserve : forall file,
             fixtures.head_mirrors
               (try_except (server.serve_file fs now (lit "GET") file)
                  (fun _ => Ok (http_response.init now 500
                                  (Some (lit "Internal Server Error")))))
               (try_except (server.serve_file fs now (lit "HEAD") file)
                  (fun _ => Ok (http_response.init now 500
                                  (Some (lit "Internal Server Error")))))).
  { intros file. pose proof (serve_file_head_mirrors file) as H.
    destruct (server.serve_file fs now (lit "GET") file),
      (server.serve_file fs now (lit "HEAD") file); cbn in *; auto;
      contradiction. }
  unfold server.handle_request_try.
  destruct (resolve fs candidate) as [resolved|e]; cbn [bind try_except];
    [|cbn; auto].
  destruct (startswith N.eqb resolved document_root); cbn [negb]; [|cbn; auto].
  destruct (exists_ fs resolved) as [[|]|e]; cbn [bind try_except negb];
    [|cbn; now auto|cbn; now auto].
  destruct (is_dir fs resolved) as [[|]|e]; cbn [bind try_except];
    [|apply Hserve|cbn; now auto].
  destruct (exists_ fs (truediv resolved (lit "index.html"))) as [[|]|e];
    cbn [bind try_except]; [|cbn; now auto|cbn; now auto].
  destruct (is_file fs (truediv resolved (lit "index.html"))) as [[|]|e];
    cbn [bind try_except]; [|cbn; now auto|cbn; now auto].
  apply Hserve.
Qed.

Lemma remove_query_string_cut (path query : str) :
  ~ In 63%N path ->
  server.remove_query_string (path ++ lit "?" ++ query) = path /\
  server.remove_query_string path = path.
Proof.
  intros Hpath. unfold server.remove_query_string.
  change (lit "?") with [63%N]. split.
  - match goal with
    | |- context [contains N.eqb ?s ?q] =>
        assert (Hin : contains N.eqb s q = true)
    end.
    { apply (contains_one N.eqb N.eqb_eq). apply in_or_app. right. now left. }
    rewrite Hin. cbn [app].
    now rewrite (split_one_app N.eqb N.eqb_eq).
  - match goal with
    | |- context [contains N.eqb ?s ?q] =>
        destruct (contains N.eqb s q) eqn:Hin
    end; [|reflexivity].
    apply (contains_one N.eqb N.eqb_eq) in Hin. contradiction.
Qed.
End HandlerInversion.

(** X8.  The status of a response of the handler is one of 200, 400, 403,
    404, 405 and 500. *)
Theorem handle_request_status_codes
  (fs : pathlib.FileSystem) (document_root : pathlib.Path)
  (now : http_response.datetime) (request : http_parser.HTTPRequest)
  (response : http_response.HTTPResponse) :
  server.handle_request fs document_root now request = Py.Ok response ->
  In (http_response.status_code response) [200; 400; 403; 404; 405; 500]%Z.
Proof.
  intros H. handler_cases H; try discriminate H; injection H as <-;
    cbn; tauto.
Qed.

Lemma handle_request_status_codes_witness :
  exists response,
    server.handle_request demo.fs demo.document_root demo.now
      (demo.request "GET" "/missing.txt") = Py.Ok response /\
    http_response.status_code response = 404%Z /\
    In (http_response.status_code response) [200; 400; 403; 404; 405; 500]%Z.
Proof.
  eexists. split; [vm_compute; reflexivity|]. split; [reflexivity|].
  apply (handle_request_status_codes demo.fs demo.document_root demo.now
           (demo.request "GET" "/missing.txt")).
  vm_compute. reflexivity.
Defined.

(** X9.  A response with status 200 is the response to a file that was
    read: the path of the request decoded and held no [../], the candidate
    resolved to a path that starts with the document root, and the file is
    that path or the [index.html] in it, is regular and gave the content.
    The content is the body for GET, and HEAD has the same response
    without it. *)
Theorem handle_request_200_serves_file_under_root
  (fs : pathlib.FileSystem) (document_root : pathlib.Path)
  (now : http_response.datetime) (request : http_parser.HTTPRequest)
  (response : http_response.HTTPResponse) :
  server.handle_request fs document_root now request = Py.Ok response ->
  http_response.status_code response = 200%Z ->
  exists path resolved file content,
    utils.url_decode (http_parser.path request) = Py.Ok path /\
    Py.contains N.eqb (server.remove_query_string path) (Py.lit "../") = false /\
    pathlib.resolve fs
      (pathlib.truediv document_root
         (server.remove_leading_slash (server.remove_query_string path)))
    = Py.Ok resolved /\
    Py.startswith N.eqb resolved document_root = true /\
    (file = resolved \/ file = pathlib.truediv resolved (Py.lit "index.html")) /\
    pathlib.is_file fs file = Py.Ok true /\
    pathlib.read_bytes fs file = Py.Ok content /\
    ((http_parser.method request = Py.lit "GET" /\
      response = http_response.set_body
                   (server.file_response now file content) (Some content)) \/
     (http_parser.method request = Py.lit "HEAD" /\
      response = server.file_response now file content)).
Proof.
  unfold server.handle_request. intros H Hstatus.
  destruct (Py.str_eqb (http_parser.method request) (Py.lit "GET")) eqn:Hget;
    destruct (Py.str_eqb (http_parser.method request) (Py.lit "HEAD")) eqn:Hhead;
    cbn [orb negb] in H; try (injection H as <-; discriminate).
  all: destruct (utils.url_decode (http_parser.path request)) as [path|e];
    [|destruct (Py.is_ValueError e); [injection H as <-|]; discriminate].
  all: exists path.
  all: destruct (Py.contains N.eqb (server.remove_query_string path) (Py.lit "../"));
    [injection H as <-; discriminate|].
  all: cbv zeta in H.
  all: match type of H with
       | Py.bind ?m _ = _ => destruct m as [[|]|e']
       end; cbn [Py.bind negb] in H;
    [|injection H as <-; discriminate|discriminate].
  all: apply handle_request_try_200 in H
      as (resolved & file & Hresolve & Hinside & _ & Hfile & Hserve);
    [|exact Hstatus].
  all: apply serve_file_200 in Hserve as (content & Hregular & Hread & ->);
    [|exact Hstatus].
  all: exists resolved, file, content; rewrite Hget.
  all: apply str_eqb_eq in Hget || apply str_eqb_eq in Hhead.
  all: repeat split; auto.
Qed.

Lemma handle_request_200_serves_file_under_root_witness :
  exists path resolved file content,
    utils.url_decode (http_parser.path (demo.request "GET" "/docs/guide.txt"))
    = Py.Ok path /\
    Py.contains N.eqb (server.remove_query_string path) (Py.lit "../") = false /\
    pathlib.resolve demo.fs
      (pathlib.truediv demo.document_root
         (server.remove_leading_slash (server.remove_query_string path)))
    = Py.Ok resolved /\
    Py.startswith N.eqb resolved demo.document_root = true /\
    (file = resolved \/ file = pathlib.truediv resolved (Py.lit "index.html")) /\
    pathlib.is_file demo.fs file = Py.Ok true /\
    pathlib.read_bytes demo.fs file = Py.Ok content /\
    ((http_parser.method (demo.request "GET" "/docs/guide.txt") = Py.lit "GET" /\
      http_response.set_body
        (server.file_response demo.now (Py.lit "/srv/www/docs/guide.txt")
           (Py.blit "read me")) (Some (Py.blit "read me"))
      = http_response.set_body
          (server.file_response demo.now file content) (Some content)) \/
     (http_parser.method (demo.request "GET" "/docs/guide.txt") = Py.lit "HEAD" /\
      http_response.set_body
        (server.file_response demo.now (Py.lit "/srv/www/docs/guide.txt")
           (Py.blit "read me")) (Some (Py.blit "read me"))
      = server.file_response demo.now file content)).
Proof.
  apply (handle_request_200_serves_file_under_root demo.fs demo.document_root
           demo.now (demo.request "GET" "/docs/guide.txt")).
  - vm_compute. reflexivity.
  - reflexivity.
Defined.

(** X10.  The handler raises only when the path ends in [/] and asking
    whether the candidate is a directory raises; it raises what that
    raised.  Every other failure of the file system becomes a response. *)
Theorem handle_request_raises_only_at_directory_check
  (fs : pathlib.FileSystem) (document_root : pathlib.Path)
  (now : http_response.datetime) (request : http_parser.HTTPRequest)
  (e : Py.exn) :
  server.handle_request fs document_root now request = Py.Raise e ->
  exists path,
    utils.url_decode (http_parser.path request) = Py.Ok path /\
    Py.endswith N.eqb
      (server.remove_leading_slash (server.remove_query_string path))
      (Py.lit "/") = true /\
    pathlib.is_dir fs
      (pathlib.truediv document_root
         (server.remove_leading_slash (server.remove_query_string path)))
    = Py.Raise e.
Proof. apply handle_request_raise_inv. Qed.

Lemma handle_request_raises_only_at_directory_check_witness :
  server.handle_request fixtures.locked_fs demo.document_root demo.now
    (demo.request "GET" "/docs/") = Py.Raise Py.PermissionError /\
  exists path,
    utils.url_decode (http_parser.path (demo.request "GET" "/docs/")) = Py.Ok path /\
    Py.endswith N.eqb
      (server.remove_leading_slash (server.remove_query_string path))
      (Py.lit "/") = true /\
    pathlib.is_dir fixtures.locked_fs
      (pathlib.truediv demo.document_root
         (server.remove_leading_slash (server.remove_query_string path)))
    = Py.Raise Py.PermissionError.
Proof.
  split; [vm_compute; reflexivity|].
  apply (handle_request_raises_only_at_directory_check fixtures.locked_fs
           demo.document_root demo.now (demo.request "GET" "/docs/")).
  vm_compute. reflexivity.
Defined.

(** X11.  The status of a response of the handler is 405 exactly when the
    method is neither [GET] nor [HEAD], and 400 exactly when the method is
    one of the two and the path does not percent-decode. *)
Theorem handle_request_405_and_400
  (fs : pathlib.FileSystem) (document_root : pathlib.Path)
  (now : http_response.datetime) (request : http_parser.HTTPRequest)
  (response : http_response.HTTPResponse) :
  server.handle_request fs document_root now request = Py.Ok response ->
  (http_response.status_code response = 405%Z <->
   http_parser.method request <> Py.lit "GET" /\
   http_parser.method request <> Py.lit "HEAD") /\
  (http_response.status_code response = 400%Z <->
   (http_parser.method request = Py.lit "GET" \/
    http_parser.method request = Py.lit "HEAD") /\
   utils.url_decode (http_parser.path request) = Py.Raise Py.ValueError).
Proof.
  unfold server.handle_request. intros H.
  destruct (Py.str_eqb (http_parser.method request) (Py.lit "GET")) eqn:Hget;
    destruct (Py.str_eqb (http_parser.method request) (Py.lit "HEAD")) eqn:Hhead;
    cbn [orb negb] in H.
  4:{ injection H as <-. apply str_eqb_neq in Hget, Hhead.
      split; split; intros Hx; try discriminate Hx; try reflexivity; try tauto;
        destruct Hx as [[Hx|Hx] _]; contradiction. }
  all: assert (Hmethod : http_parser.method request = Py.lit "GET" \/
                         http_parser.method request = Py.lit "HEAD")
    by (first [left; now apply str_eqb_eq | right; now apply str_eqb_eq]).
  all: clear Hget Hhead.
  all: destruct (utils.url_decode (http_parser.path request)) as [path|e] eqn:Hdecode;
    [|apply url_decode_raises in Hdecode as Heq; subst e;
      injection H as <-; split; split; intros Hx; try discriminate Hx;
      try reflexivity; try tauto; destruct Hx as [Ha Hb];
      destruct Hmethod; contradiction].
  all: unfold server.handle_request_try, server.serve_file in H;
    repeat handler_step H; cbn [Py.bind Py.try_except negb] in H;
    try discriminate H; injection H as <-.
  all: split; split; intros Hx; try discriminate Hx; destruct Hx as [Ha Hb];
    first [congruence | destruct Hmethod; contradiction].
Qed.

Lemma handle_request_405_and_400_witness :
  exists response,
    server.handle_request demo.fs demo.document_root demo.now
      (demo.request "HEAD" "/%ff") = Py.Ok response /\
    http_response.status_code response = 400%Z.
Proof.
  eexists. split; [vm_compute; reflexivity|].
  match goal with
  | |- http_response.status_code ?r = _ =>
      destruct (handle_request_405_and_400 demo.fs demo.document_root demo.now
                  (demo.request "HEAD" "/%ff") r) as [_ [_ Hbad]]
  end.
  - vm_compute. reflexivity.
  - apply Hbad. split; [right; reflexivity|vm_compute; reflexivity].
Defined.

(** X17.  For one path, whatever it is, the handler answers HEAD as it
    answers GET: with the same status, message and headers and never with
    a body, or by raising the same exception. *)
Theorem handle_request_head_mirrors_get
  (fs : pathlib.FileSystem) (document_root : pathlib.Path)
  (now : http_response.datetime) (get head : http_parser.HTTPRequest) :
  http_parser.method get = Py.lit "GET" ->
  http_parser.method head = Py.lit "HEAD" ->
  http_parser.path head = http_parser.path get ->
  match server.handle_request fs document_root now get,
        server.handle_request fs document_root now head with
  | Py.Ok response_get, Py.Ok response_head =>
      http_response.status_code response_head
      = http_response.status_code response_get /\
      http_response.status_message response_head
      = http_response.status_message response_get /\
      http_response.headers response_head = http_response.headers response_get /\
      http_response.body response_head = None
  | Py.Raise e, Py.Raise e' => e = e'
  | _, _ => False
  end.
Proof.
  intros Hget Hhead Hpath.
  change (fixtures.head_mirrors
            (server.handle_request fs document_root now get)
            (server.handle_request fs document_root now head)).
  unfold server.handle_request. rewrite Hget, Hhead, Hpath.
  change (negb (Py.str_eqb (Py.lit "GET") (Py.lit "GET")
                || Py.str_eqb (Py.lit "GET") (Py.lit "HEAD"))) with false.
  change (negb (Py.str_eqb (Py.lit "HEAD") (Py.lit "GET")
                || Py.str_eqb (Py.lit "HEAD") (Py.lit "HEAD"))) with false.
  cbv iota.
  destruct (utils.url_decode (http_parser.path get)) as [path|e].
  2:{ destruct (Py.is_ValueError e); cbn; auto. }
  destruct (Py.contains N.eqb (server.remove_query_string path) (Py.lit "../"));
    [cbn; now auto|].
  cbv zeta.
  destruct (Py.endswith N.eqb _ _).
  - destruct (pathlib.is_dir fs _) as [[|]|e]; cbn [Py.bind negb];
      [apply handle_request_try_head_mirrors|cbn; auto|cbn; auto].
  - cbn [Py.bind negb]. apply handle_request_try_head_mirrors.
Qed.

Lemma handle_request_head_mirrors_get_witness :
  fixtures.head_mirrors
    (server.handle_request demo.fs demo.document_root demo.now
       (demo.request "GET" "/docs/"))
    (server.handle_request demo.fs demo.document_root demo.now
       (demo.request "HEAD" "/docs/")).
Proof.
  apply (handle_request_head_mirrors_get demo.fs demo.document_root demo.now
           (demo.request "GET" "/docs/") (demo.request "HEAD" "/docs/"));
    reflexivity.
Defined.

(** X20.  Text after the first [?] of the decoded path does not change
    the answer: a request whose decoded path is a path without [?], a [?]
    and a query is answered as the request for the path alone. *)
Theorem handle_request_ignores_query_string
  (fs : pathlib.FileSystem) (document_root : pathlib.Path)
  (now : http_response.datetime) (plain queried : http_parser.HTTPRequest)
  (path query : Py.str) :
  http_parser.method queried = http_parser.method plain ->
  utils.url_decode (http_parser.path plain) = Py.Ok path ->
  utils.url_decode (http_parser.path queried)
  = Py.Ok (path ++ Py.lit "?" ++ query) ->
  ~ In 63%N path ->
  server.handle_request fs document_root now queried
  = server.handle_request fs document_root now plain.
Proof.
  intros Hmethod Hplain Hqueried Hpath.
  destruct (remove_query_string_cut path query Hpath) as [Hcut Hsame].
  unfold server.handle_request.
  rewrite Hmethod, Hplain, Hqueried.
  rewrite Hcut, Hsame. reflexivity.
Qed.

Lemma handle_request_ignores_query_string_witness :
  server.handle_request demo.fs demo.document_root demo.now
    (demo.request "GET" "/index.html?lang=en&page=%32")
  = server.handle_request demo.fs demo.document_root demo.now
      (demo.request "GET" "/index.html").
Proof.
  apply (handle_request_ignores_query_string demo.fs demo.document_root demo.now
           (demo.request "GET" "/index.html")
           (demo.request "GET" "/index.html?lang=en&page=%32")
           (Py.lit "/index.html") (Py.lit "lang=en&page=2")).
  - reflexivity.
  - vm_compute. reflexivity.
  - vm_compute. reflexivity.
  - vm_compute. intuition discriminate.
Defined.

(* ================================================================== *)
(** * Further properties of [url_decode] *)
(* ================================================================== *)

Section UnquoteFacts.
Import Py utils.

Lemma to_N_byte_of_N (c : N) : (c < 256)%N -> Byte.to_N (byte_of_N c) = c.
Proof.
  intros Hc. unfold byte_of_N.
  destruct (Byte.of_N c) as [b|] eqn:E.
  - now apply Byte.to_of_N.
  - apply Byte.of_N_None_iff in E. lia.
Qed.

(** Decoding the octets of ASCII text gives the text back. *)
Lemma decode_strict_ascii (s : str) :
  str_isascii s = true -> decode_strict (ascii_bytes s) = Ok s.
Proof.
  unfold decode_strict.
  induction s as [|c s IH]; [reflexivity|].
  simpl str_isascii. intros H. apply andb_true_iff in H as [Hc Hs].
  unfold isascii in Hc. pose proof Hc as Hlt. apply N.ltb_lt in Hlt.
  simpl ascii_bytes. simpl utf8_scan.
  rewrite to_N_byte_of_N by lia. rewrite Hc.
  simpl. rewrite (IH Hs). reflexivity.
Qed.

Lemma ascii_runs_ascii (c : char) (s : str) :
  str_isascii (c :: s) = true -> ascii_runs (c :: s) = [(true, c :: s)].
Proof.
  revert c. induction s as [|d s IH]; intros c H.
  - simpl in *. rewrite andb_true_r in H. now rewrite H.
  - simpl str_isascii in H. apply andb_true_iff in H as [Hc Hs].
    change (ascii_runs (c :: d :: s))
      with (match ascii_runs (d :: s) with
            | (b, r) :: rs =>
                if Bool.eqb b (isascii c) then (b, c :: r) :: rs
                else (isascii c, [c]) :: (b, r) :: rs
            | [] => [(isascii c, [c])]
            end).
    rewrite (IH d Hs), Hc. reflexivity.
Qed.

(** Without a [%] followed by two hexadecimal digits nothing is
    unquoted. *)
Lemma unquote_to_bytes_plain (s : str) :
  (forall before h1 h2 after,
      s = before ++ PERCENT :: h1 :: h2 :: after ->
      is_hexdig h1 && is_hexdig h2 = false) ->
  unquote_to_bytes s = ascii_bytes s.
Proof.
  induction s as [|c s IH]; intros Hplain; [reflexivity|].
  assert (Htail : unquote_to_bytes s = ascii_bytes s).
  { apply IH. intros before h1 h2 after ->.
    apply (Hplain (c :: before) h1 h2 after). reflexivity. }
  simpl. destruct (c =? PERCENT)%N eqn:Hc.
  - apply N.eqb_eq in Hc. subst c.
    destruct s as [|h1 [|h2 rest]]; try (now rewrite Htail).
    rewrite (Hplain [] h1 h2 rest eq_refl). now rewrite Htail.
  - now rewrite Htail.
Qed.
End UnquoteFacts.

(** X15.  A [%] that is not followed by two hexadecimal digits is no
    error: ASCII text in which no [%] is followed by two hexadecimal digits
    decodes to itself. *)
Theorem url_decode_keeps_malformed_escapes (path : Py.str) :
  Py.str_isascii path = true ->
  (forall before h1 h2 after,
      path = before ++ utils.PERCENT :: h1 :: h2 :: after ->
      utils.is_hexdig h1 && utils.is_hexdig h2 = false) ->
  utils.url_decode path = Py.Ok path.
Proof.
  intros Hascii Hplain. unfold utils.url_decode, utils.unquote.
  destruct (negb (Py.contains N.eqb path [utils.PERCENT])); [reflexivity|].
  destruct path as [|c path]; [reflexivity|].
  rewrite (ascii_runs_ascii c path Hascii). cbn [utils.unquote_runs].
  rewrite (unquote_to_bytes_plain (c :: path) Hplain).
  rewrite (decode_strict_ascii (c :: path) Hascii).
  cbn [Py.bind Py.try_except]. now rewrite app_nil_r.
Qed.

Lemma url_decode_keeps_malformed_escapes_witness :
  utils.url_decode (Py.lit "/50%") = Py.Ok (Py.lit "/50%").
Proof.
  apply (url_decode_keeps_malformed_escapes (Py.lit "/50%")).
  - reflexivity.
  - intros before h1 h2 after H.
    destruct before as [|b0 [|b1 [|b2 [|b3 [|b4 before]]]]];
      discriminate H.
Defined.

(* ================================================================== *)
(** * Further properties of the connection loop *)
(* ================================================================== *)

Lemma loop_body_at_most_one
  (fs : pathlib.FileSystem) (document_root : pathlib.Path) (p : server.pass) :
  (List.length (fst (server.loop_body fs document_root p)) <= 1)%nat.
Proof.
  unfold server.loop_body.
  repeat match goal with
         | |- context [match ?x with _ => _ end] => destruct x
         end; simpl; lia.
Qed.

(** X12.  Once the loop is left nothing more is read: the passes that
    would follow change neither what was written nor the state. *)
Theorem handle_client_stops_when_closed
  (fs : pathlib.FileSystem) (document_root : pathlib.Path)
  (passes more : list server.pass) :
  snd (server.handle_client fs document_root passes) = server.Closing ->
  server.handle_client fs document_root (passes ++ more)
  = server.handle_client fs document_root passes.
Proof.
  induction passes as [|p passes IH]; simpl; [discriminate|].
  destruct (server.loop_body fs document_root p) as [written [|]];
    [|reflexivity].
  destruct (server.handle_client fs document_root passes) as [later state].
  simpl. intros ->. now rewrite IH.
Qed.

Lemma handle_client_stops_when_closed_witness :
  server.handle_client demo.fs demo.document_root
    (demo.keep_then_close ++ demo.keep_then_close)
  = server.handle_client demo.fs demo.document_root demo.keep_then_close.
Proof.
  apply (handle_client_stops_when_closed demo.fs demo.document_root
           demo.keep_then_close demo.keep_then_close).
  vm_compute. reflexivity.
Defined.

(** X13.  A connection writes at most one response for each read. *)
Theorem handle_client_one_write_per_read
  (fs : pathlib.FileSystem) (document_root : pathlib.Path)
  (passes : list server.pass) :
  (List.length (fst (server.handle_client fs document_root passes))
   <= List.length passes)%nat.
Proof.
  induction passes as [|p passes IH]; simpl; [lia|].
  pose proof (loop_body_at_most_one fs document_root p) as Hone.
  destruct (server.loop_body fs document_root p) as [written [|]].
  - destruct (server.handle_client fs document_root passes) as [later state].
    simpl in *. rewrite length_app. lia.
  - simpl in *. lia.
Qed.

(** X14.  On a file system where asking whether a path is a directory
    does not raise, every read that gives bytes is answered with exactly
    one response, whatever the bytes are. *)
Theorem loop_body_answers_every_request
  (fs : pathlib.FileSystem) (document_root : pathlib.Path)
  (p : server.pass) (data : Py.bytes) :
  (forall path e, pathlib.is_dir fs path <> Py.Raise e) ->
  server.read p = server.ReadData data ->
  data <> [] ->
  exists wire, fst (server.loop_body fs document_root p) = [wire].
Proof.
  intros Hdir Hread Hdata. unfold server.loop_body. rewrite Hread.
  destruct data as [|b data]; [contradiction|].
  destruct (http_parser.parse_http_request (b :: data)) as [request|e] eqn:Hparse.
  - destruct (server.handle_request fs document_root (server.clock p) request)
      as [response|e] eqn:Hhandle.
    + apply handle_request_defaults in Hhandle as [Hascii _].
      destruct (to_bytes_ascii response Hascii) as [after ->].
      repeat match goal with
             | |- context [if ?c then _ else _] => destruct c
             end; simpl; eauto.
    + apply handle_request_raise_inv in Hhandle as (path & _ & _ & Hraise).
      now apply Hdir in Hraise.
  - assert (He : e = Py.ValueError).
    { unfold http_parser.parse_http_request in Hparse.
      destruct (http_parser.parse_http_request_try (b :: data));
        simpl in Hparse; congruence. }
    subst e. cbn [Py.is_ValueError].
    destruct (to_bytes_ascii
                (http_response.init (server.clock p) 400
                   (Some (Py.lit "Bad Request")))) as [after ->].
    { now apply init_ascii. }
    simpl. eauto.
Qed.

Lemma loop_body_answers_every_request_witness :
  exists wire,
    fst (server.loop_body demo.fs demo.document_root
           (demo.pass_of (Py.blit "no request at all")))
    = [wire].
Proof.
  apply (loop_body_answers_every_request demo.fs demo.document_root
           (demo.pass_of (Py.blit "no request at all"))
           (Py.blit "no request at all")).
  - intros path e. discriminate.
  - reflexivity.
  - discriminate.
Defined.

(** X18.  A request without a header named [Connection] that was
    answered closes the connection when its version is [HTTP/1.0], and
    keeps it for every other version. *)
Theorem handle_client_without_connection_header
  (fs : pathlib.FileSystem) (document_root : pathlib.Path)
  (p : server.pass) (data : Py.bytes) (request : http_parser.HTTPRequest)
  (response after : http_response.HTTPResponse) (wire : Py.bytes) :
  server.read p = server.ReadData data ->
  http_parser.parse_http_request data = Py.Ok request ->
  server.handle_request fs document_root (server.clock p) request = Py.Ok response ->
  http_response.to_bytes response = Py.Ok (wire, after) ->
  server.drain_ok p = true ->
  Py.dict_get (http_parser.headers request) (Py.lit "Connection") = None ->
  (http_parser.version request = Py.lit "HTTP/1.0" ->
   server.loop_body fs document_root p = ([wire], server.Closing)) /\
  (http_parser.version request <> Py.lit "HTTP/1.0" ->
   server.loop_body fs document_root p = ([wire], server.Reading)).
Proof.
  intros Hread Hparse Hhandle Hbytes Hdrain Hnone.
  rewrite (loop_body_responded fs document_root p data request response wire
             after Hread Hparse Hhandle Hbytes Hdrain).
  unfold server.connection_header, Py.dict_get_default. rewrite Hnone.
  cbn [Py.lower map].
  change (Py.str_eqb [] (Py.lit "close")) with false.
  change (Py.str_eqb [] (Py.lit "keep-alive")) with false.
  cbn [orb negb]. rewrite andb_true_r. split.
  - intros ->. reflexivity.
  - intros Hversion. apply str_eqb_neq in Hversion. now rewrite Hversion.
Qed.

Lemma handle_client_without_connection_header_witness :
  exists wire,
    server.loop_body demo.fs demo.document_root
      (demo.pass_of (demo.message "GET /index.html HTTP/1.0"
                       ["connection: keep-alive"%string]))
    = ([wire], server.Closing).
Proof.
  eexists.
  edestruct (handle_client_without_connection_header demo.fs demo.document_root
               (demo.pass_of (demo.message "GET /index.html HTTP/1.0"
                                ["connection: keep-alive"%string])))
    as [Hcloses _].
  - reflexivity.
  - vm_compute. reflexivity.
  - vm_compute. reflexivity.
  - vm_compute. reflexivity.
  - reflexivity.
  - vm_compute. reflexivity.
  - apply Hcloses. vm_compute. reflexivity.
Defined.
